(** * The traffic plugin: query classification and response synthesis

    A shallow embedding of [plugin/traffic/traffic.go] (package [traffic]):
    [ServeDNS], [serveEndpoint] and [soa], together with the parts of the Go
    standard library ([strings], [strconv], [net]) and of [miekg/dns] that
    they call.  Go packages are Rocq modules of the same name, so that the
    embedding reads [strings.HasSuffix], [dns.SplitDomainName], ... as the
    source does.

    Conventions.
    - A Go [string] is a [string]; DNS names in presentation format are
      ASCII (bytes outside the printable range are escaped as [\DDD]).
    - A Go [int] is a [Z]; [uint16] and [uint32] fields are [Z] with the
      truncation written out where the source truncates.
    - A slice is a [list]; indexing out of range panics, which the embedding
      keeps as the [Panic] outcome.
    - [w.WriteMsg(m)] appends [m] to the list of messages the writer has
      sent. *)

From Stdlib Require Import String Ascii List ZArith Bool Lia DecimalString PeanoNat.
From Stdlib Require DecimalNat.
Import ListNotations.

Local Open Scope string_scope.
Local Open Scope list_scope.

(** ** Package [strings] *)

Module strings.

Definition lower_byte (c : ascii) : ascii :=
  let n := nat_of_ascii c in
  if (65 <=? n)%nat && (n <=? 90)%nat then ascii_of_nat (n + 32) else c.

(** [strings.ToLower] on ASCII input: 'A'..'Z' are mapped to 'a'..'z'. *)
Fixpoint ToLower (s : string) : string :=
  match s with
  | EmptyString => EmptyString
  | String c r => String (lower_byte c) (ToLower r)
  end.

(** [s[n:]] *)
Definition slice_from (n : nat) (s : string) : string :=
  substring n (String.length s - n) s.

(** [len(s) >= len(prefix) && s[0:len(prefix)] == prefix] *)
Definition HasPrefix (s prefix : string) : bool :=
  (String.length prefix <=? String.length s)%nat
  && (substring 0 (String.length prefix) s =? prefix).

(** [len(s) >= len(suffix) && s[len(s)-len(suffix):] == suffix] *)
Definition HasSuffix (s suffix : string) : bool :=
  (String.length suffix <=? String.length s)%nat
  && (slice_from (String.length s - String.length suffix) s =? suffix).

(** [strings.Index]: position of the first occurrence of [substr] in [s],
    or [-1]. *)
Definition Index (s substr : string) : Z :=
  match index 0 substr s with
  | Some i => Z.of_nat i
  | None => (-1)%Z
  end.

End strings.

(** ** Package [strconv] *)

Module strconv.

Definition digit_value (c : ascii) : option Z :=
  let n := nat_of_ascii c in
  if (48 <=? n)%nat && (n <=? 57)%nat then Some (Z.of_nat (n - 48)) else None.

Fixpoint digits (s : string) (acc : Z) : option Z :=
  match s with
  | EmptyString => Some acc
  | String c r =>
      match digit_value c with
      | Some d => digits r (acc * 10 + d)
      | None => None
      end
  end.

Definition minInt : Z := - 2 ^ 63.
Definition maxInt : Z := 2 ^ 63 - 1.

(** [strconv.Atoi] on a 64-bit platform: an optional sign, then at least one
    decimal digit and nothing else; a value outside the [int] range is an
    error.  [None] is the non-nil [err]. *)
Definition Atoi (s : string) : option Z :=
  let '(neg, body) :=
    match s with
    | String "-" r => (true, r)
    | String "+" r => (false, r)
    | _ => (false, s)
    end in
  match body with
  | EmptyString => None
  | _ =>
      match digits body 0 with
      | Some n =>
          let v := if neg then (- n)%Z else n in
          if (minInt <=? v)%Z && (v <=? maxInt)%Z then Some v else None
      | None => None
      end
  end.

End strconv.

(** ** Package [fmt] *)

Module fmt.

(** The [%d] verb on a slice index. *)
Definition decimal (i : nat) : string := NilZero.string_of_uint (Nat.to_uint i).

End fmt.

(** ** Package [net] *)

Module net.

(** [net.IP] is a byte slice: 4 bytes, 16 bytes, or anything else for an
    invalid address. *)
Definition IP : Type := list Z.

Definition isZeros (p : list Z) : bool := forallb (Z.eqb 0) p.

(** [IP.To4]: the 4-byte form of an IPv4 address, [None] for [nil]. *)
Definition To4 (ip : IP) : option IP :=
  if (List.length ip =? 4)%nat then Some ip
  else if (List.length ip =? 16)%nat
          && isZeros (firstn 10 ip)
          && (nth 10 ip 0 =? 255)%Z && (nth 11 ip 0 =? 255)%Z
       then Some (firstn 4 (skipn 12 ip))
       else None.

End net.

(** ** Package [dns] (miekg/dns) *)

Module dns.

Definition TypeA : Z := 1.
Definition TypeSOA : Z := 6.
Definition TypeAAAA : Z := 28.
Definition TypeSRV : Z := 33.
Definition ClassINET : Z := 1.
Definition RcodeSuccess : Z := 0.
Definition RcodeNameError : Z := 3.
Definition OpcodeQuery : Z := 0.

Record RR_Header : Type := mkHdr
  { Name : string; Rrtype : Z; Class : Z; Ttl : Z }.

(** The resource records the plugin builds. *)
Inductive RR : Type :=
| A (Hdr : RR_Header) (addr : net.IP)
| AAAA (Hdr : RR_Header) (addr : net.IP)
| SRV (Hdr : RR_Header) (Priority Weight Port : Z) (Target : string)
| SOA (Hdr : RR_Header) (Ns Mbox : string)
      (Serial Refresh Retry Expire Minttl : Z).

Definition Header (rr : RR) : RR_Header :=
  match rr with
  | A h _ | AAAA h _ | SRV h _ _ _ _ | SOA h _ _ _ _ _ _ _ => h
  end.

(** [dns.Question]; the Go field [Name] is [Qname] here. *)
Record Question : Type := mkQuestion
  { Qname : string; Qtype : Z; Qclass : Z }.

(** [dns.Msg]; the Go field [Question] is [Questions] here. *)
Record Msg : Type := mkMsg
  { Id : Z;
    Response : bool;
    Opcode : Z;
    Authoritative : bool;
    RecursionDesired : bool;
    CheckingDisabled : bool;
    Rcode : Z;
    Questions : list Question;
    Answer : list RR;
    Ns : list RR;
    Extra : list RR }.

(** [new(dns.Msg)] *)
Definition new_Msg : Msg :=
  mkMsg 0 false 0 false false false 0 [] [] [] [].

Definition set_Authoritative (b : bool) (m : Msg) : Msg :=
  mkMsg (Id m) (Response m) (Opcode m) b (RecursionDesired m)
        (CheckingDisabled m) (Rcode m) (Questions m) (Answer m) (Ns m) (Extra m).

Definition set_Rcode (rc : Z) (m : Msg) : Msg :=
  mkMsg (Id m) (Response m) (Opcode m) (Authoritative m) (RecursionDesired m)
        (CheckingDisabled m) rc (Questions m) (Answer m) (Ns m) (Extra m).

Definition set_Answer (rrs : list RR) (m : Msg) : Msg :=
  mkMsg (Id m) (Response m) (Opcode m) (Authoritative m) (RecursionDesired m)
        (CheckingDisabled m) (Rcode m) (Questions m) rrs (Ns m) (Extra m).

Definition set_Ns (rrs : list RR) (m : Msg) : Msg :=
  mkMsg (Id m) (Response m) (Opcode m) (Authoritative m) (RecursionDesired m)
        (CheckingDisabled m) (Rcode m) (Questions m) (Answer m) rrs (Extra m).

Definition set_Extra (rrs : list RR) (m : Msg) : Msg :=
  mkMsg (Id m) (Response m) (Opcode m) (Authoritative m) (RecursionDesired m)
        (CheckingDisabled m) (Rcode m) (Questions m) (Answer m) (Ns m) rrs.

(** [Msg.SetReply]: the reply copies id, opcode and the first question, and
    the rd and cd bits of a standard query; the rcode is success. *)
Definition SetReply (request : Msg) (m : Msg) : Msg :=
  let q := (Opcode request =? OpcodeQuery)%Z in
  mkMsg (Id request) true (Opcode request) (Authoritative m)
        (if q then RecursionDesired request else RecursionDesired m)
        (if q then CheckingDisabled request else CheckingDisabled m)
        RcodeSuccess
        (match Questions request with
         | [] => Questions m
         | q0 :: _ => [q0]
         end)
        (Answer m) (Ns m) (Extra m).

(** Number of consecutive backslashes that end just before index [i]. *)
Fixpoint backslashes_before (s : string) (i : nat) : nat :=
  match i with
  | O => O
  | S j =>
      match get j s with
      | Some "\"%char => S (backslashes_before s j)
      | _ => O
      end
  end.

(** [dns.IsFqdn]: the name ends in a dot that is not escaped. *)
Definition IsFqdn (s : string) : bool :=
  match String.length s with
  | O => false
  | S l =>
      match get l s with
      | Some "."%char => Nat.even (backslashes_before s l)
      | _ => false
      end
  end.

(** The loop of [dns.NextLabel]: from [i], the index after the next dot
    that is not escaped and not the last byte.  [fuel] bounds the number of
    iterations, the length of [s] is always enough. *)
Fixpoint NextLabel_loop (fuel : nat) (s : string) (i : nat) : nat * bool :=
  match fuel with
  | O => (i + 1, true)%nat
  | S fuel' =>
      if (i <? String.length s - 1)%nat then
        match get i s with
        | Some "."%char =>
            if Nat.odd (backslashes_before s i)
            then NextLabel_loop fuel' s (i + 1)
            else (i + 1, false)%nat
        | _ => NextLabel_loop fuel' s (i + 1)
        end
      else (i + 1, true)%nat
  end.

Definition NextLabel (s : string) (offset : nat) : nat * bool :=
  if s =? "" then (0, true)%nat else NextLabel_loop (String.length s) s offset.

(** The loop of [dns.Split]: the start index of every label after the
    first. *)
Fixpoint Split_loop (fuel : nat) (s : string) (off : nat) : list nat :=
  match fuel with
  | O => []
  | S fuel' =>
      let '(off', e) := NextLabel s off in
      if e then [] else off' :: Split_loop fuel' s off'
  end.

(** [dns.Split]: the start index of every label; [nil] for the root. *)
Definition Split (s : string) : list nat :=
  if s =? "." then [] else 0%nat :: Split_loop (String.length s) s 0.

Fixpoint labels_between (s : string) (begin : nat) (ends : list nat)
                        (fqdnEnd : nat) : list string :=
  match ends with
  | [] => [substring begin (fqdnEnd - begin) s]
  | e :: rest =>
      substring begin (e - 1 - begin) s :: labels_between s e rest fqdnEnd
  end.

(** [dns.SplitDomainName]: the labels of a name, [nil] for the empty string
    and for the root. *)
Definition SplitDomainName (s : string) : list string :=
  if s =? "" then []
  else
    let idx := Split s in
    let fqdnEnd :=
      if IsFqdn s then (String.length s - 1)%nat else String.length s in
    match idx with
    | [] => []
    | _ :: rest => labels_between s 0 rest fqdnEnd
    end.

(** [dns.ResponseWriter], as the messages written so far. *)
Definition ResponseWriter : Type := list Msg.

Definition WriteMsg (w : ResponseWriter) (m : Msg) : ResponseWriter := w ++ [m].

End dns.

(** ** Package [request] *)

Module request.

(** [request.Request]: the query, the writer to answer on, and the zone the
    handler found for it. *)
Record Request : Type := mkRequest
  { Req : dns.Msg; W : dns.ResponseWriter; Zone : string }.

Definition set_Zone (z : string) (state : Request) : Request :=
  mkRequest (Req state) (W state) z.

(** Modelled from the spec: [request.Request.QName] is not among the sources.
    It is the name of the first question as the client sent it, and the root
    when the query carries no question. *)
Definition QName (state : Request) : string :=
  match dns.Questions (Req state) with
  | [] => "."
  | q :: _ => dns.Qname q
  end.

(** Modelled from the spec: [request.Request.Name] is not among the sources.
    The classifier compares names case-insensitively; the request layer
    provides that by handing out the question name in lower case. *)
Definition Name (state : Request) : string := strings.ToLower (QName state).

(** Modelled from the spec: [request.Request.QType] is not among the
    sources.  It is the type of the first question, 0 when there is none. *)
Definition QType (state : Request) : Z :=
  match dns.Questions (Req state) with
  | [] => 0%Z
  | q :: _ => dns.Qtype q
  end.

End request.

(** ** Package [xds]: the assignment provider *)

Module xds.

(** An endpoint as the plugin sees it: [Address()] and [Port()]. *)
Record SocketAddress : Type := mkSocketAddress
  { Address : net.IP; Port : Z }.

(** The provider is outside the plugin; it is the two calls the handler
    makes.  [Select] returns [(sockaddr, ok)] with [None] for a [nil]
    pointer, [All] returns [(sockaddrs, ok)].  Nothing ties the answers of
    the two calls together: the assignments may change between them. *)
Record Client : Type := mkClient
  { Select : string -> bool -> option SocketAddress * bool;
    All : string -> bool -> list SocketAddress * bool }.

End xds.

(** ** Package [dnsutil] *)

Module dnsutil.

(** Modelled from the spec: [dnsutil.TrimZone] is not among the sources.
    The cluster identifier is the query name with the zone suffix removed,
    without the dot that separated them; the second component is the error
    of a name that is not longer than the zone. *)
Definition TrimZone (q z : string) : string * bool :=
  (substring 0 (String.length q - String.length z - 1) q,
   (String.length q <=? String.length z)%nat).

(** Modelled from the spec: [dnsutil.Join] is not among the sources.  The
    labels are joined with dots, the last one being the zone: [ns.<zone>],
    [coredns.<zone>]. *)
Definition Join (labels : list string) : string := String.concat "." labels.

End dnsutil.

(** ** Package [plugin] *)

Module plugin.

(** What a call of a handler does: it returns its code after having written
    messages, or it panics. *)
Inductive Outcome : Type :=
| Return (code : Z) (w : dns.ResponseWriter)
| Panic (w : dns.ResponseWriter).

(** The messages the writer holds when the call is over. *)
Definition written (o : Outcome) : dns.ResponseWriter :=
  match o with
  | Return _ w => w
  | Panic w => w
  end.

(** [plugin.Handler], by its [ServeDNS] method. *)
Definition Handler : Type := dns.ResponseWriter -> dns.Msg -> Outcome.

End plugin.

(** ** Package [traffic] *)

Module traffic.

Import plugin.

(** [Traffic]; the TLS configuration plays no part in query handling and is
    left out. *)
Record Traffic : Type := mkTraffic
  { c : xds.Client;
    node : string;
    mgmt : string;
    hosts : list string;
    id : string;
    health : bool;
    origins : list string;
    Next : option Handler }.

Definition set_Next (next : option Handler) (t : Traffic) : Traffic :=
  mkTraffic (c t) (node t) (mgmt t) (hosts t) (id t) (health t) (origins t) next.

(** [sockaddrs[nr]] for an [int] index: [None] is the index-out-of-range
    panic. *)
Definition at_index {A : Type} (l : list A) (nr : Z) : option A :=
  if (nr <? 0)%Z then None else nth_error l (Z.to_nat nr).

(** [f i x0; f (i+1) x1; ...]: what a [for i, x := range] loop that appends
    one element per iteration builds, counting from [i]. *)
Fixpoint map_indexed {A B : Type} (f : nat -> A -> B) (i : nat) (l : list A)
  : list B :=
  match l with
  | [] => []
  | x :: rest => f i x :: map_indexed f (S i) rest
  end.

Section Handler.

(** The two helpers of [dnsutil], which are not among the sources, are
    parameters of the handler: what is proved about it holds whatever they
    return. *)
Variable TrimZone : string -> string -> string * bool.
Variable Join : list string -> string.

(** [soa]: the synthetic SOA of zone [z]; [now] is the reading of the clock,
    [time.Now().UTC().Unix()], truncated to 32 bits for the serial. *)
Definition soa (now : Z) (z : string) : list dns.RR :=
  [dns.SOA (dns.mkHdr z dns.TypeSOA dns.ClassINET 5)
           (Join ["ns"; z]) (Join ["coredns"; z])
           (now mod 2 ^ 32) 14400 3600 604800 5].

(** The reply every path starts from: [new(dns.Msg)], [SetReply],
    [Authoritative = true]. *)
Definition reply (r : dns.Msg) : dns.Msg :=
  dns.set_Authoritative true (dns.SetReply r dns.new_Msg).

(** [m.Ns = soa(zone); m.Rcode = rcode; w.WriteMsg(m); return 0, nil] *)
Definition write_soa (now : Z) (state : request.Request) (m : dns.Msg)
                     (rcode : Z) : Outcome :=
  Return 0 (dns.WriteMsg (request.W state)
              (dns.set_Rcode rcode (dns.set_Ns (soa now (request.Zone state)) m))).

(** The body of the A and AAAA cases, which [ServeDNS] and [serveEndpoint]
    share: an address of the other family is answered with the SOA alone. *)
Definition address_answer (now : Z) (state : request.Request) (m : dns.Msg)
                          (addr : net.IP) : dns.Msg :=
  if (request.QType state =? dns.TypeA)%Z then
    match net.To4 addr with
    | None => dns.set_Ns (soa now (request.Zone state)) m
    | Some _ =>
        dns.set_Answer
          [dns.A (dns.mkHdr (request.QName state) dns.TypeA dns.ClassINET 5) addr] m
    end
  else
    match net.To4 addr with
    | Some _ => dns.set_Ns (soa now (request.Zone state)) m
    | None =>
        dns.set_Answer
          [dns.AAAA (dns.mkHdr (request.QName state) dns.TypeAAAA dns.ClassINET 5)
                    addr] m
    end.

(** [serveEndpoint] *)
Definition serveEndpoint (t : Traffic) (now : Z) (state : request.Request)
                         (endpoint cluster : string) : Outcome :=
  let m := reply (request.Req state) in
  let i := strings.Index endpoint "-" in
  if (i =? -1)%Z || (i =? Z.of_nat (String.length endpoint))%Z then
    write_soa now state m dns.RcodeNameError
  else
    let end_ := strings.slice_from (Z.to_nat (i + 1)) endpoint in
    match strconv.Atoi end_ with
    | None => write_soa now state m dns.RcodeNameError
    | Some nr =>
        let sockaddrs := fst (xds.All (c t) cluster (health t)) in
        if (Z.of_nat (List.length sockaddrs) <? nr)%Z then
          write_soa now state m dns.RcodeNameError
        else
          match at_index sockaddrs nr with
          | None => Panic (request.W state)
          | Some sa =>
              let addr := xds.Address sa in
              let m :=
                if (request.QType state =? dns.TypeA)%Z
                   || (request.QType state =? dns.TypeAAAA)%Z
                then address_answer now state m addr
                else dns.set_Ns (soa now (request.Zone state)) m in
              Return 0 (dns.WriteMsg (request.W state) m)
          end
    end.

(** ["endpoint-%d.%s.%s"] *)
Definition target_name (i : nat) (cluster zone : string) : string :=
  "endpoint-" ++ fmt.decimal i ++ "." ++ cluster ++ "." ++ zone.

Definition srv_record (state : request.Request) (i : nat) (cluster : string)
                      (sa : xds.SocketAddress) : dns.RR :=
  dns.SRV (dns.mkHdr (request.QName state) dns.TypeSRV dns.ClassINET 5)
          100 100 (xds.Port sa) (target_name i cluster (request.Zone state)).

Definition glue_record (state : request.Request) (i : nat) (cluster : string)
                       (sa : xds.SocketAddress) : dns.RR :=
  let target := target_name i cluster (request.Zone state) in
  match net.To4 (xds.Address sa) with
  | None => dns.AAAA (dns.mkHdr target dns.TypeAAAA dns.ClassINET 5) (xds.Address sa)
  | Some _ => dns.A (dns.mkHdr target dns.TypeA dns.ClassINET 5) (xds.Address sa)
  end.

(** The loop of the SRV case, [for i, sa := range sockaddrs]: one SRV
    record appended to the answer and one address record appended to the
    additional section per endpoint. *)
Fixpoint srv_loop (state : request.Request) (cluster : string) (i : nat)
                  (sockaddrs : list xds.SocketAddress) (m : dns.Msg) : dns.Msg :=
  match sockaddrs with
  | [] => m
  | sa :: rest =>
      let m := dns.set_Answer (dns.Answer m ++ [srv_record state i cluster sa]) m in
      let m := dns.set_Extra (dns.Extra m ++ [glue_record state i cluster sa]) m in
      srv_loop state cluster (S i) rest m
  end.

(** The end of [ServeDNS], from [if sockaddr == nil] on, which every path
    that has not returned yet reaches with its [cluster] and [sockaddr]. *)
Definition synthesize (t : Traffic) (now : Z) (state : request.Request)
                      (m : dns.Msg) (cluster : string)
                      (sockaddr : option xds.SocketAddress) : Outcome :=
  match sockaddr with
  | None =>
      Return 0 (dns.WriteMsg (request.W state)
                  (dns.set_Ns (soa now (request.Zone state)) m))
  | Some sa =>
      let m :=
        if (request.QType state =? dns.TypeA)%Z
           || (request.QType state =? dns.TypeAAAA)%Z
        then address_answer now state m (xds.Address sa)
        else if (request.QType state =? dns.TypeSRV)%Z then
          let sockaddrs := fst (xds.All (c t) cluster (health t)) in
          srv_loop state cluster 0 sockaddrs
                   (dns.set_Extra [] (dns.set_Answer [] m))
        else dns.set_Ns (soa now (request.Zone state)) m in
      Return 0 (dns.WriteMsg (request.W state) m)
  end.

(** The loop over [t.origins]: the first origin that is a suffix of the
    name gives the cluster and the zone; without one both stay empty. *)
Fixpoint find_origin (name : string) (origins : list string) : string * string :=
  match origins with
  | [] => ("", "")
  | o :: rest =>
      if strings.HasSuffix name o then (fst (TrimZone name o), o)
      else find_origin name rest
  end.

(** [ServeDNS]; [switch len(labels)] is the match on the shape of
    [labels]. *)
Definition ServeDNS (t : Traffic) (now : Z) (w : dns.ResponseWriter)
                    (r : dns.Msg) : Outcome :=
  let state := request.mkRequest r w "" in
  let '(cluster, zone) := find_origin (request.Name state) (origins t) in
  let state := request.set_Zone zone state in
  let m := reply r in
  let '(sockaddr, ok) := xds.Select (c t) cluster (health t) in
  if negb ok then
    match dns.SplitDomainName cluster with
    | [l0; l1] =>
        if strings.ToLower l0 =? "_tcp" then
          write_soa now state m dns.RcodeSuccess
        else if strings.HasPrefix (strings.ToLower l0) "endpoint-" then
          let cluster := l1 in
          let '(_, ok) := xds.Select (c t) cluster (health t) in
          if negb ok then write_soa now state m dns.RcodeNameError
          else serveEndpoint t now state l0 cluster
        else synthesize t now state m cluster sockaddr
    | [l0; l1; _] =>
        if negb (strings.ToLower l0 =? "_grpclb")
           || negb (strings.ToLower l1 =? "_tcp")
        then write_soa now state m dns.RcodeNameError
        else
          let cluster := mgmt t in
          let sockaddr := fst (xds.Select (c t) cluster (health t)) in
          synthesize t now state m cluster sockaddr
    | _ => write_soa now state m dns.RcodeNameError
    end
  else synthesize t now state m cluster sockaddr.

(** The cluster and the zone [ServeDNS] computes for a query: the name the
    loop runs on does not depend on the writer. *)
Definition classify (t : Traffic) (r : dns.Msg) : string * string :=
  find_origin (request.Name (request.mkRequest r [] "")) (origins t).

(** The request state [ServeDNS] works with once the zone is set. *)
Definition state_of (t : Traffic) (w : dns.ResponseWriter) (r : dns.Msg)
  : request.Request :=
  request.mkRequest r w (snd (classify t r)).

(** The four forms of a written message: the SOA with one of the two
    rcodes, one A record, one AAAA record, or the records of the SRV
    loop. *)
Definition written_form (t : Traffic) (now : Z) (state : request.Request)
                        (m : dns.Msg) : Prop :=
  (exists rcode,
      (rcode = dns.RcodeSuccess \/ rcode = dns.RcodeNameError)
      /\ m = dns.set_Rcode rcode
               (dns.set_Ns (soa now (request.Zone state)) (reply (request.Req state))))
  \/ (exists addr,
         request.QType state = dns.TypeA /\ net.To4 addr <> None
         /\ m = dns.set_Answer
                  [dns.A (dns.mkHdr (request.QName state) dns.TypeA dns.ClassINET 5) addr]
                  (reply (request.Req state)))
  \/ (exists addr,
         request.QType state = dns.TypeAAAA /\ net.To4 addr = None
         /\ m = dns.set_Answer
                  [dns.AAAA (dns.mkHdr (request.QName state) dns.TypeAAAA dns.ClassINET 5)
                            addr]
                  (reply (request.Req state)))
  \/ (exists cluster,
         request.QType state = dns.TypeSRV
         /\ m = srv_loop state cluster 0 (fst (xds.All (c t) cluster (health t)))
                         (dns.set_Extra [] (dns.set_Answer [] (reply (request.Req state))))).

End Handler.

(** The header of a message and its question section: what a reply takes
    from the query. *)
Definition header_of (m : dns.Msg)
  : Z * bool * Z * bool * bool * bool * list dns.Question :=
  (dns.Id m, dns.Response m, dns.Opcode m, dns.Authoritative m,
   dns.RecursionDesired m, dns.CheckingDisabled m, dns.Questions m).

(** [Name] *)
Definition Name (t : Traffic) : string := "traffic".

(** *** The response invariant of the specification *)

Definition answer_populated (m : dns.Msg) : bool :=
  match dns.Answer m with
  | [] => false
  | _ :: _ => true
  end.

Definition is_SOA (rr : dns.RR) : bool :=
  match rr with
  | dns.SOA _ _ _ _ _ _ _ _ => true
  | _ => false
  end.

Definition soa_populated (m : dns.Msg) : bool := existsb is_SOA (dns.Ns m).

(** Exactly one of the answer section and the SOA in the authority section
    is populated, and the rcode is success or name error. *)
Definition response_invariant (m : dns.Msg) : bool :=
  xorb (answer_populated m) (soa_populated m)
  && ((dns.Rcode m =? dns.RcodeSuccess)%Z || (dns.Rcode m =? dns.RcodeNameError)%Z).

(** *** Zone matching as the specification words it *)

Fixpoint is_list_suffix (suffix l : list string) : bool :=
  if list_eq_dec string_dec suffix l then true
  else match l with
       | [] => false
       | _ :: rest => is_list_suffix suffix rest
       end.

(** The labels of the zone, compared case-insensitively, end the labels of
    the name. *)
Definition label_boundary_match (name zone : string) : bool :=
  is_list_suffix (map strings.ToLower (dns.SplitDomainName zone))
                 (map strings.ToLower (dns.SplitDomainName name)).

(** The first configured zone that matches at a label boundary. *)
Definition first_label_boundary_zone (name : string) (zones : list string)
  : option string :=
  find (label_boundary_match name) zones.

End traffic.

(** ** The scenarios of the specification

    Zone [example.org.], management cluster [mgmt]; the provider knows the
    cluster [web] with the single endpoint 10.0.0.1:8080 and the management
    cluster with 10.0.0.9:7000. *)

Module scenario.

Definition ipv4 (a b c d : Z) : net.IP :=
  [0; 0; 0; 0; 0; 0; 0; 0; 0; 0; 255; 255; a; b; c; d]%Z.

Definition web1 : xds.SocketAddress := xds.mkSocketAddress (ipv4 10 0 0 1) 8080.
Definition web2 : xds.SocketAddress :=
  xds.mkSocketAddress [32; 1; 13; 184; 0; 0; 0; 0; 0; 0; 0; 0; 0; 0; 0; 1]%Z 8081.
Definition mgmt1 : xds.SocketAddress := xds.mkSocketAddress (ipv4 10 0 0 9) 7000.

Definition provider : xds.Client :=
  xds.mkClient
    (fun cluster _ =>
       if cluster =? "web" then (Some web1, true)
       else if cluster =? "mgmt" then (Some mgmt1, true)
       else (None, false))
    (fun cluster _ =>
       if cluster =? "web" then ([web1], true)
       else if cluster =? "mgmt" then ([mgmt1], true)
       else ([], false)).

(** A provider whose cluster [web] has an IPv4 and an IPv6 endpoint. *)
Definition provider2 : xds.Client :=
  xds.mkClient
    (fun cluster _ => if cluster =? "web" then (Some web1, true) else (None, false))
    (fun cluster _ => if cluster =? "web" then ([web1; web2], true) else ([], false)).

(** A provider that selects an endpoint of [web] and then lists none: the
    assignments changed between the two calls. *)
Definition provider_emptied : xds.Client :=
  xds.mkClient
    (fun cluster _ => if cluster =? "web" then (Some web1, true) else (None, false))
    (fun cluster _ => if cluster =? "web" then ([], true) else ([], false)).

(** A provider that has a cluster whose name is [_tcp.web]. *)
Definition provider_tcp : xds.Client :=
  xds.mkClient
    (fun cluster _ =>
       if cluster =? "_tcp.web" then (Some web1, true) else (None, false))
    (fun cluster _ =>
       if cluster =? "_tcp.web" then ([web1], true) else ([], false)).

(** A provider without the management cluster. *)
Definition provider_no_mgmt : xds.Client :=
  xds.mkClient
    (fun cluster _ => if cluster =? "web" then (Some web1, true) else (None, false))
    (fun cluster _ => if cluster =? "web" then ([web1], true) else ([], false)).

(** A provider whose cluster [web] has one IPv6 endpoint. *)
Definition provider6 : xds.Client :=
  xds.mkClient
    (fun cluster _ => if cluster =? "web" then (Some web2, true) else (None, false))
    (fun cluster _ => if cluster =? "web" then ([web2], true) else ([], false)).

(** A provider that knows the cluster [idle] and has no endpoint for it. *)
Definition provider_idle : xds.Client :=
  xds.mkClient
    (fun cluster _ => if cluster =? "idle" then (None, true) else (None, false))
    (fun cluster _ => ([], cluster =? "idle")).


Definition other1 : xds.SocketAddress := xds.mkSocketAddress (ipv4 10 0 0 7) 9000.

(** A provider that has, beside the cluster [web], a cluster whose name is
    [endpoint-0.web]. *)
Definition provider_endpoint_named : xds.Client :=
  xds.mkClient
    (fun cluster _ =>
       if cluster =? "web" then (Some web1, true)
       else if cluster =? "endpoint-0.web" then (Some other1, true)
       else (None, false))
    (fun cluster _ =>
       if cluster =? "web" then ([web1], true)
       else if cluster =? "endpoint-0.web" then ([other1], true)
       else ([], false)).

Definition plugin_with (p : xds.Client) : traffic.Traffic :=
  traffic.mkTraffic p "node" "mgmt" [] "id" false ["example.org."] None.

Definition query (name : string) (qtype : Z) : dns.Msg :=
  dns.mkMsg 7 false dns.OpcodeQuery false true false 0
            [dns.mkQuestion name qtype dns.ClassINET] [] [] [].

Definition clock : Z := 1580000000.

(** A type the handler has no records for. *)
Definition TypeTXT : Z := 16.

Definition serve (p : xds.Client) (name : string) (qtype : Z) : plugin.Outcome :=
  traffic.ServeDNS dnsutil.TrimZone dnsutil.Join (plugin_with p) clock []
                   (query name qtype).

End scenario.

(** ** Facts about [dns] *)

Module dns_facts.

Import dns.

(** The examples of the documentation of [SplitDomainName]. *)
Example SplitDomainName_fqdn :
  SplitDomainName "www.miek.nl." = ["www"; "miek"; "nl"].
Proof. reflexivity. Qed.

Example SplitDomainName_leading_dot :
  SplitDomainName ".www.miek.nl." = [""; "www"; "miek"; "nl"].
Proof. reflexivity. Qed.

Example SplitDomainName_root : SplitDomainName "." = [].
Proof. reflexivity. Qed.

Example SplitDomainName_escaped_dot :
  SplitDomainName "a\.b.web" = ["a\.b"; "web"].
Proof. reflexivity. Qed.

Example Split_indexes : Split "www.miek.nl." = [0; 4; 9]%nat.
Proof. reflexivity. Qed.

(** The fuel of the two loops is enough: the result is the same with any
    larger amount, so that no loop is cut short. *)
Lemma NextLabel_loop_stop (s : string) (fuel i : nat) :
  (String.length s <= i)%nat -> NextLabel_loop fuel s i = (i + 1, true)%nat.
Proof.
  intros H. destruct fuel as [|fuel]; simpl; [reflexivity|].
  destruct (Nat.ltb_spec i (String.length s - 1)); [lia | reflexivity].
Qed.

Lemma NextLabel_loop_fuel (s : string) :
  forall fuel1 fuel2 i,
    (String.length s - i <= fuel1)%nat -> (String.length s - i <= fuel2)%nat ->
    NextLabel_loop fuel1 s i = NextLabel_loop fuel2 s i.
Proof.
  induction fuel1 as [|fuel1 IH]; intros fuel2 i H1 H2.
  - rewrite (NextLabel_loop_stop s fuel2 i) by lia. reflexivity.
  - destruct fuel2 as [|fuel2].
    + rewrite (NextLabel_loop_stop s (S fuel1) i) by lia. reflexivity.
    + simpl. destruct (Nat.ltb_spec i (String.length s - 1)); [|reflexivity].
      rewrite (IH fuel2 (i + 1)%nat) by lia. reflexivity.
Qed.

(** [NextLabel] moves forward, and reports the end from the last byte on. *)
Lemma NextLabel_loop_forward (s : string) :
  forall fuel i off e,
    NextLabel_loop fuel s i = (off, e) -> (i < off)%nat.
Proof.
  induction fuel as [|fuel IH]; intros i off e; simpl.
  - intros E. injection E as <- _. lia.
  - destruct (i <? String.length s - 1)%nat.
    + destruct (get i s) as [ch|].
      * destruct (ascii_dec ch ".") as [->|Hne].
        -- destruct (Nat.odd (backslashes_before s i)).
           ++ intros E. apply IH in E. lia.
           ++ intros E. injection E as <- _. lia.
        -- assert (E' : match ch with
                        | "."%char =>
                            if Nat.odd (backslashes_before s i)
                            then NextLabel_loop fuel s (i + 1)
                            else ((i + 1)%nat, false)
                        | _ => NextLabel_loop fuel s (i + 1)
                        end = NextLabel_loop fuel s (i + 1)).
           { destruct ch as [[] [] [] [] [] [] [] []]; try reflexivity.
             now elim Hne. }
           rewrite E'. intros E. apply IH in E. lia.
      * intros E. apply IH in E. lia.
    + intros E. injection E as <- _. lia.
Qed.

Lemma NextLabel_at_end (s : string) (off : nat) :
  (String.length s <= off)%nat -> snd (NextLabel s off) = true.
Proof.
  intros H. unfold NextLabel. destruct (s =? ""); [reflexivity|].
  now rewrite NextLabel_loop_stop.
Qed.

Lemma Split_loop_fuel (s : string) :
  forall fuel1 fuel2 off,
    (String.length s - off <= fuel1)%nat -> (String.length s - off <= fuel2)%nat ->
    Split_loop fuel1 s off = Split_loop fuel2 s off.
Proof.
  assert (Stop : forall fuel off, (String.length s <= off)%nat ->
                                  Split_loop fuel s off = []).
  { intros [|fuel] off H; simpl; [reflexivity|].
    pose proof (NextLabel_at_end s off H) as E.
    destruct (NextLabel s off) as [off' e]. simpl in E. now subst e. }
  induction fuel1 as [|fuel1 IH]; intros fuel2 off H1 H2.
  - rewrite (Stop fuel2 off) by lia. reflexivity.
  - destruct fuel2 as [|fuel2].
    + rewrite (Stop (S fuel1) off) by lia. reflexivity.
    + simpl. destruct (NextLabel s off) as [off' e] eqn:E.
      destruct e; [reflexivity|]. f_equal.
      assert (off < off')%nat.
      { unfold NextLabel in E. destruct (s =? ""); [discriminate|].
        now apply NextLabel_loop_forward in E. }
      apply IH; lia.
Qed.

End dns_facts.

(** ** Facts about [strconv] and [net] *)

Module strconv_facts.

Import strconv.

Example Atoi_plain : Atoi "12" = Some 12%Z.
Proof. reflexivity. Qed.

Example Atoi_signed : Atoi "-1" = Some (-1)%Z /\ Atoi "+7" = Some 7%Z.
Proof. split; reflexivity. Qed.

Example Atoi_syntax_errors :
  Atoi "" = None /\ Atoi "-" = None /\ Atoi "1a" = None /\ Atoi "1_0" = None.
Proof. repeat split. Qed.

Example Atoi_range :
  Atoi "9223372036854775807" = Some maxInt
  /\ Atoi "9223372036854775808" = None
  /\ Atoi "-9223372036854775808" = Some minInt.
Proof. repeat split. Qed.

(** What [Atoi] accepts lies in the range of [int]. *)
Lemma Atoi_range_bound (s : string) (v : Z) :
  Atoi s = Some v -> (minInt <= v <= maxInt)%Z.
Proof.
  unfold Atoi.
  destruct (match s with
            | String "-" r => (true, r)
            | String "+" r => (false, r)
            | _ => (false, s)
            end) as [neg body].
  destruct body as [|ch body]; [discriminate|].
  destruct (digits (String ch body) 0) as [n|]; [|discriminate].
  destruct ((minInt <=? (if neg then (- n)%Z else n))%Z
            && ((if neg then (- n)%Z else n) <=? maxInt)%Z) eqn:E; [|discriminate].
  intros H. injection H as <-.
  apply andb_true_iff in E as [E1 E2].
  apply Z.leb_le in E1, E2. lia.
Qed.

Example To4_mapped :
  net.To4 [0; 0; 0; 0; 0; 0; 0; 0; 0; 0; 255; 255; 10; 0; 0; 1]%Z
  = Some [10; 0; 0; 1]%Z.
Proof. reflexivity. Qed.

Example To4_ipv6 :
  net.To4 [32; 1; 13; 184; 0; 0; 0; 0; 0; 0; 0; 0; 0; 0; 0; 1]%Z = None.
Proof. reflexivity. Qed.

End strconv_facts.

(** * Properties *)

(** ** Facts about [strings] *)

Module strings_facts.

Import strings.

Lemma length_app (p q : string) :
  String.length (p ++ q) = (String.length p + String.length q)%nat.
Proof.
  induction p as [|ch p IH]; simpl; [reflexivity | now rewrite IH].
Qed.

Lemma substring_whole (q : string) : substring 0 (String.length q) q = q.
Proof.
  induction q as [|ch q IH]; simpl; [reflexivity | now rewrite IH].
Qed.

Lemma substring_skip_app (p q : string) (n : nat) :
  substring (String.length p) n (p ++ q) = substring 0 n q.
Proof.
  induction p as [|ch p IH]; simpl; [reflexivity | exact IH].
Qed.

Lemma slice_from_app (p q : string) : slice_from (String.length p) (p ++ q) = q.
Proof.
  unfold slice_from. rewrite length_app, substring_skip_app.
  replace (String.length p + String.length q - String.length p)%nat
    with (String.length q) by lia.
  apply substring_whole.
Qed.

Lemma take_drop (s : string) (n : nat) :
  (substring 0 n s ++ slice_from n s)%string = s.
Proof.
  unfold slice_from. revert n.
  induction s as [|ch s IH]; intros [|n]; simpl; try reflexivity.
  - now rewrite substring_whole.
  - now rewrite IH.
Qed.

(** [HasSuffix] is the plain suffix relation on strings. *)
Lemma HasSuffix_iff (s suffix : string) :
  HasSuffix s suffix = true <-> exists p, s = (p ++ suffix)%string.
Proof.
  unfold HasSuffix. split.
  - intros H. apply andb_true_iff in H as [_ H]. apply String.eqb_eq in H.
    exists (substring 0 (String.length s - String.length suffix) s).
    pose proof (take_drop s (String.length s - String.length suffix)) as T.
    rewrite H in T. now symmetry.
  - intros [p ->]. rewrite length_app. apply andb_true_iff. split.
    + apply Nat.leb_le. lia.
    + replace (String.length p + String.length suffix - String.length suffix)%nat
        with (String.length p) by lia.
      rewrite slice_from_app. apply String.eqb_refl.
Qed.

Lemma HasSuffix_false_iff (s suffix : string) :
  HasSuffix s suffix = false <-> ~ exists p, s = (p ++ suffix)%string.
Proof.
  rewrite <- HasSuffix_iff. destruct (HasSuffix s suffix); split; intros H.
  - discriminate.
  - now elim H.
  - discriminate.
  - reflexivity.
Qed.

(** [ToLower] leaves a lower-case string alone, so that it is idempotent. *)
Lemma lower_byte_idem (ch : ascii) : lower_byte (lower_byte ch) = lower_byte ch.
Proof.
  destruct ch as [[] [] [] [] [] [] [] []]; reflexivity.
Qed.

Lemma ToLower_idem (s : string) : ToLower (ToLower s) = ToLower s.
Proof.
  induction s as [|ch s IH]; simpl; [reflexivity|].
  now rewrite lower_byte_idem, IH.
Qed.

(** A byte that lowers to the hyphen is the hyphen, and a byte that lowers
    to a letter is not. *)
Lemma lower_byte_hyphen (ch : ascii) : lower_byte ch = "-"%char -> ch = "-"%char.
Proof.
  destruct ch as [[] [] [] [] [] [] [] []]; vm_compute; congruence.
Qed.

Lemma lower_byte_letter (ch : ascii) :
  (97 <=? nat_of_ascii (lower_byte ch))%nat = true -> ch <> "-"%char.
Proof.
  intros H ->. vm_compute in H. discriminate.
Qed.

Lemma index_cons (s1 : string) (ch : ascii) (s : string) :
  index 0 s1 (String ch s) =
  if prefix s1 (String ch s) then Some 0%nat
  else match index 0 s1 s with
       | Some n => Some (S n)
       | None => None
       end.
Proof. reflexivity. Qed.

Lemma prefix_hyphen (ch : ascii) (s : string) :
  prefix "-" (String ch s) = if ascii_dec "-" ch then true else false.
Proof.
  change (prefix "-" (String ch s))
    with (if ascii_dec "-" ch then prefix "" s else false).
  destruct (ascii_dec "-" ch); [destruct s|]; reflexivity.
Qed.

Lemma Index_hyphen_cons (ch : ascii) (s : string) :
  ch <> "-"%char -> Index (String ch s) "-" = (1 + Index s "-")%Z \/
                   (Index s "-" = (-1)%Z /\ Index (String ch s) "-" = (-1)%Z).
Proof.
  intros Hne. unfold Index. rewrite index_cons, prefix_hyphen.
  destruct (ascii_dec "-" ch) as [E|_]; [now elim Hne|].
  destruct (index 0 "-" s) as [i|]; [left; lia | right; split; reflexivity].
Qed.

Lemma Index_hyphen_here (s : string) : Index (String "-" s) "-" = 0%Z.
Proof.
  unfold Index. rewrite index_cons, prefix_hyphen.
  destruct (ascii_dec "-" "-") as [_|N]; [reflexivity | now elim N].
Qed.

(** In a label that starts, case-insensitively, with [endpoint-], the first
    hyphen is at index 8. *)
Lemma Index_endpoint (l0 : string) :
  HasPrefix (ToLower l0) "endpoint-" = true -> Index l0 "-" = 8%Z.
Proof.
  unfold HasPrefix. intros H. apply andb_true_iff in H as [_ H].
  apply String.eqb_eq in H.
  destruct l0 as [|c0 [|c1 [|c2 [|c3 [|c4 [|c5 [|c6 [|c7 [|c8 rest]]]]]]]]];
    simpl in H; try discriminate.
  injection H as H0 H1 H2 H3 H4 H5 H6 H7 H8.
  apply lower_byte_hyphen in H8. subst c8.
  assert (L : forall ch x, lower_byte ch = x ->
                (97 <=? nat_of_ascii x)%nat = true -> ch <> "-"%char).
  { intros ch x <-. apply lower_byte_letter. }
  pose proof (L _ _ H0 eq_refl) as N0. pose proof (L _ _ H1 eq_refl) as N1.
  pose proof (L _ _ H2 eq_refl) as N2. pose proof (L _ _ H3 eq_refl) as N3.
  pose proof (L _ _ H4 eq_refl) as N4. pose proof (L _ _ H5 eq_refl) as N5.
  pose proof (L _ _ H6 eq_refl) as N6. pose proof (L _ _ H7 eq_refl) as N7.
  clear - N0 N1 N2 N3 N4 N5 N6 N7.
  pose proof (Index_hyphen_here rest) as E8.
  remember (String "-" rest) as s8 eqn:D8.
  remember (String c7 s8) as s7 eqn:D7. remember (String c6 s7) as s6 eqn:D6.
  remember (String c5 s6) as s5 eqn:D5. remember (String c4 s5) as s4 eqn:D4.
  remember (String c3 s4) as s3 eqn:D3. remember (String c2 s3) as s2 eqn:D2.
  remember (String c1 s2) as s1 eqn:D1.
  pose proof (Index_hyphen_cons c7 s8 N7) as E7. rewrite <- D7 in E7.
  pose proof (Index_hyphen_cons c6 s7 N6) as E6. rewrite <- D6 in E6.
  pose proof (Index_hyphen_cons c5 s6 N5) as E5. rewrite <- D5 in E5.
  pose proof (Index_hyphen_cons c4 s5 N4) as E4. rewrite <- D4 in E4.
  pose proof (Index_hyphen_cons c3 s4 N3) as E3. rewrite <- D3 in E3.
  pose proof (Index_hyphen_cons c2 s3 N2) as E2. rewrite <- D2 in E2.
  pose proof (Index_hyphen_cons c1 s2 N1) as E1. rewrite <- D1 in E1.
  pose proof (Index_hyphen_cons c0 s1 N0) as E0.
  lia.
Qed.

Lemma endpoint_prefix_not_tcp (l0 : string) :
  HasPrefix (ToLower l0) "endpoint-" = true -> (ToLower l0 =? "_tcp") = false.
Proof.
  intros H. apply String.eqb_neq. intros E. rewrite E in H. discriminate.
Qed.

End strings_facts.

(** ** Facts about the handler *)

Module traffic_facts.

Import plugin traffic.

Lemma map_indexed_length {A B : Type} (f : nat -> A -> B) (l : list A) :
  forall i, List.length (map_indexed f i l) = List.length l.
Proof.
  induction l as [|x l IH]; intros i; simpl; [reflexivity | now rewrite IH].
Qed.

Lemma map_indexed_nth {A B : Type} (f : nat -> A -> B) (l : list A) :
  forall i k x, nth_error l k = Some x ->
                nth_error (map_indexed f i l) k = Some (f (i + k)%nat x).
Proof.
  induction l as [|y l IH]; intros i [|k] x H; simpl in *; try discriminate.
  - injection H as ->. now rewrite Nat.add_0_r.
  - rewrite (IH (S i) k x H). f_equal. f_equal. lia.
Qed.

Lemma at_index_Some {A : Type} (l : list A) (nr : Z) (x : A) :
  at_index l nr = Some x <->
  (0 <= nr)%Z /\ nth_error l (Z.to_nat nr) = Some x.
Proof.
  unfold at_index. destruct (Z.ltb_spec nr 0); split.
  - discriminate.
  - intros [? _]. lia.
  - intros E. split; [lia | exact E].
  - intros [_ E]. exact E.
Qed.

(** Indexing panics exactly outside [0 <= nr < len(l)]. *)
Lemma at_index_None {A : Type} (l : list A) (nr : Z) :
  at_index l nr = None <-> (nr < 0)%Z \/ (Z.of_nat (List.length l) <= nr)%Z.
Proof.
  unfold at_index. destruct (Z.ltb_spec nr 0); split; intros H'.
  - now left.
  - reflexivity.
  - right. apply nth_error_None in H'. lia.
  - apply nth_error_None. destruct H' as [?|?]; lia.
Qed.

Section Properties.

Variable TrimZone : string -> string -> string * bool.
Variable Join : list string -> string.

Local Abbreviation soa := (soa Join).
Local Abbreviation synthesize := (synthesize Join).
Local Abbreviation serveEndpoint := (serveEndpoint Join).
Local Abbreviation ServeDNS := (ServeDNS TrimZone Join).
Local Abbreviation classify := (classify TrimZone).
Local Abbreviation find_origin := (find_origin TrimZone).
Local Abbreviation state_of := (state_of TrimZone).
Local Abbreviation write_soa := (write_soa Join).
Local Abbreviation address_answer := (address_answer Join).

(** *** The reply every path starts from *)

Lemma reply_sections (r : dns.Msg) :
  dns.Answer (reply r) = [] /\ dns.Ns (reply r) = [] /\ dns.Extra (reply r) = []
  /\ dns.Rcode (reply r) = dns.RcodeSuccess /\ dns.Authoritative (reply r) = true
  /\ dns.Response (reply r) = true /\ dns.Id (reply r) = dns.Id r.
Proof. repeat split. Qed.

(** *** The SRV loop *)

Lemma srv_loop_sections (state : request.Request) (cluster : string)
      (sockaddrs : list xds.SocketAddress) :
  forall i m,
    dns.Answer (srv_loop state cluster i sockaddrs m)
    = dns.Answer m ++ map_indexed (fun k sa => srv_record state k cluster sa) i sockaddrs
    /\ dns.Extra (srv_loop state cluster i sockaddrs m)
       = dns.Extra m ++ map_indexed (fun k sa => glue_record state k cluster sa) i sockaddrs
    /\ dns.Ns (srv_loop state cluster i sockaddrs m) = dns.Ns m
    /\ dns.Rcode (srv_loop state cluster i sockaddrs m) = dns.Rcode m.
Proof.
  induction sockaddrs as [|sa rest IH]; intros i m; simpl.
  - now rewrite !app_nil_r.
  - destruct (IH (S i)
       (dns.set_Extra (dns.Extra m ++ [glue_record state i cluster sa])
          (dns.set_Answer (dns.Answer m ++ [srv_record state i cluster sa]) m)))
      as (Ha & He & Hn & Hr).
    simpl in *. rewrite Ha, He, Hn, Hr, <- !app_assoc. simpl. auto.
Qed.

(** *** The zone loop *)

(** [find_origin] stops at the first origin that is a plain suffix of the
    name. *)
Lemma find_origin_spec (name : string) (origins : list string) :
  (exists pre o post,
      origins = pre ++ o :: post
      /\ Forall (fun z => strings.HasSuffix name z = false) pre
      /\ strings.HasSuffix name o = true
      /\ find_origin name origins = (fst (TrimZone name o), o))
  \/ (Forall (fun z => strings.HasSuffix name z = false) origins
      /\ find_origin name origins = ("", "")).
Proof.
  induction origins as [|o rest IH]; simpl.
  - right. split; [constructor | reflexivity].
  - destruct (strings.HasSuffix name o) eqn:E.
    + left. exists [], o, rest. repeat split; auto.
    + destruct IH as [(pre & o' & post & -> & Hpre & Ho & Hf)|[Hall Hf]].
      * left. exists (o :: pre), o', post. repeat split; auto.
      * right. split; auto.
Qed.

(** *** The paths of [ServeDNS] *)

Ltac open_ServeDNS t w r :=
  unfold traffic.ServeDNS, traffic.state_of;
  change (traffic.find_origin TrimZone
            (request.Name (request.mkRequest r w "")) (origins t))
    with (traffic.classify TrimZone t r);
  destruct (traffic.classify TrimZone t r) as [cluster zone];
  cbn [fst snd request.set_Zone request.Req request.W request.Zone] in *.

(** The direct lookup succeeds. *)
Lemma ServeDNS_found t now w r :
  snd (xds.Select (c t) (fst (classify t r)) (health t)) = true ->
  ServeDNS t now w r
  = synthesize t now (state_of t w r) (reply r) (fst (classify t r))
               (fst (xds.Select (c t) (fst (classify t r)) (health t))).
Proof.
  open_ServeDNS t w r. intros H.
  destruct (xds.Select (c t) cluster (health t)) as [sockaddr ok].
  cbn [fst snd] in *. now subst ok.
Qed.

(** The direct lookup fails on a subject of two labels. *)
Lemma ServeDNS_two_labels t now w r l0 l1 :
  snd (xds.Select (c t) (fst (classify t r)) (health t)) = false ->
  dns.SplitDomainName (fst (classify t r)) = [l0; l1] ->
  ServeDNS t now w r
  = if strings.ToLower l0 =? "_tcp" then
      write_soa now (state_of t w r) (reply r) dns.RcodeSuccess
    else if strings.HasPrefix (strings.ToLower l0) "endpoint-" then
      if negb (snd (xds.Select (c t) l1 (health t))) then
        write_soa now (state_of t w r) (reply r) dns.RcodeNameError
      else serveEndpoint t now (state_of t w r) l0 l1
    else synthesize t now (state_of t w r) (reply r) (fst (classify t r))
                    (fst (xds.Select (c t) (fst (classify t r)) (health t))).
Proof.
  open_ServeDNS t w r. intros H Hs.
  destruct (xds.Select (c t) cluster (health t)) as [sockaddr ok].
  cbn [fst snd] in *. subst ok. cbn [negb]. rewrite Hs.
  destruct (xds.Select (c t) l1 (health t)) as [sockaddr1 ok1]. reflexivity.
Qed.

(** The direct lookup fails on a subject of three labels. *)
Lemma ServeDNS_three_labels t now w r l0 l1 l2 :
  snd (xds.Select (c t) (fst (classify t r)) (health t)) = false ->
  dns.SplitDomainName (fst (classify t r)) = [l0; l1; l2] ->
  ServeDNS t now w r
  = if negb (strings.ToLower l0 =? "_grpclb") || negb (strings.ToLower l1 =? "_tcp")
    then write_soa now (state_of t w r) (reply r) dns.RcodeNameError
    else synthesize t now (state_of t w r) (reply r) (mgmt t)
                    (fst (xds.Select (c t) (mgmt t) (health t))).
Proof.
  open_ServeDNS t w r. intros H Hs.
  destruct (xds.Select (c t) cluster (health t)) as [sockaddr ok].
  cbn [fst snd] in *. subst ok. cbn [negb]. now rewrite Hs.
Qed.

(** The direct lookup fails on a subject of any other number of labels. *)
Lemma ServeDNS_other_labels t now w r :
  snd (xds.Select (c t) (fst (classify t r)) (health t)) = false ->
  List.length (dns.SplitDomainName (fst (classify t r))) <> 2%nat ->
  List.length (dns.SplitDomainName (fst (classify t r))) <> 3%nat ->
  ServeDNS t now w r = write_soa now (state_of t w r) (reply r) dns.RcodeNameError.
Proof.
  open_ServeDNS t w r. intros H H2 H3.
  destruct (xds.Select (c t) cluster (health t)) as [sockaddr ok].
  cbn [fst snd] in *. subst ok. cbn [negb].
  destruct (dns.SplitDomainName cluster) as [|a [|b [|d [|e rest]]]];
    try reflexivity; cbn [List.length] in *; congruence.
Qed.

(** *** What each path writes *)

Lemma invariant_of_soa (m : dns.Msg) (now : Z) (z : string) :
  dns.Answer m = [] -> dns.Ns m = soa now z ->
  dns.Rcode m = dns.RcodeSuccess \/ dns.Rcode m = dns.RcodeNameError ->
  response_invariant m = true.
Proof.
  unfold response_invariant, answer_populated, soa_populated.
  intros -> -> [-> | ->]; reflexivity.
Qed.

Lemma invariant_of_answer (m : dns.Msg) :
  dns.Answer m <> [] -> dns.Ns m = [] ->
  dns.Rcode m = dns.RcodeSuccess \/ dns.Rcode m = dns.RcodeNameError ->
  response_invariant m = true.
Proof.
  unfold response_invariant, answer_populated, soa_populated.
  intros Ha -> Hr. destruct (dns.Answer m); [now elim Ha|].
  destruct Hr as [-> | ->]; reflexivity.
Qed.

Lemma write_soa_invariant now state r rcode :
  rcode = dns.RcodeSuccess \/ rcode = dns.RcodeNameError ->
  exists m, write_soa now state (reply r) rcode = Return 0 (request.W state ++ [m])
            /\ response_invariant m = true.
Proof.
  intros Hr. eexists. split; [reflexivity|].
  apply invariant_of_soa with (now := now) (z := request.Zone state);
    [reflexivity | reflexivity | exact Hr].
Qed.

Lemma address_answer_invariant now state r addr :
  response_invariant (address_answer now state (reply r) addr) = true.
Proof.
  unfold traffic.address_answer.
  destruct (request.QType state =? dns.TypeA)%Z, (net.To4 addr); reflexivity.
Qed.

(** [serveEndpoint] panics exactly when the parsed index is negative or
    equal to the number of endpoints; otherwise it writes one message. *)
Lemma serveEndpoint_outcome t now state endpoint cluster :
  (exists m, serveEndpoint t now state endpoint cluster
             = Return 0 (request.W state ++ [m])
             /\ response_invariant m = true)
  \/ (serveEndpoint t now state endpoint cluster = Panic (request.W state)
      /\ exists nr,
           strconv.Atoi (strings.slice_from
                           (Z.to_nat (strings.Index endpoint "-" + 1)) endpoint)
           = Some nr
           /\ (nr < 0 \/ nr = Z.of_nat (List.length
                                          (fst (xds.All (c t) cluster (health t)))))%Z).
Proof.
  unfold traffic.serveEndpoint.
  destruct ((strings.Index endpoint "-" =? -1)%Z
            || (strings.Index endpoint "-" =? Z.of_nat (String.length endpoint))%Z).
  { left. apply write_soa_invariant. now right. }
  destruct (strconv.Atoi _) as [nr|] eqn:Hnr.
  2:{ left. apply write_soa_invariant. now right. }
  destruct (Z.ltb_spec (Z.of_nat (List.length (fst (xds.All (c t) cluster (health t))))) nr)
    as [Hlt|Hge].
  { left. apply write_soa_invariant. now right. }
  destruct (at_index _ nr) as [sa|] eqn:Hat.
  - left. eexists. split; [reflexivity|].
    destruct ((request.QType state =? dns.TypeA)%Z
              || (request.QType state =? dns.TypeAAAA)%Z).
    + apply address_answer_invariant.
    + reflexivity.
  - right. split; [reflexivity|]. exists nr. split; [reflexivity|].
    apply at_index_None in Hat. lia.
Qed.

(** The end of [ServeDNS] writes one message; both sections are empty only
    for an SRV query whose list of endpoints is empty. *)
Lemma synthesize_outcome t now state r cluster sockaddr :
  exists m, synthesize t now state (reply r) cluster sockaddr
            = Return 0 (request.W state ++ [m])
    /\ (response_invariant m = true
        \/ (request.QType state = dns.TypeSRV
            /\ dns.Answer m = [] /\ dns.Ns m = []
            /\ dns.Rcode m = dns.RcodeSuccess
            /\ sockaddr <> None
            /\ fst (xds.All (c t) cluster (health t)) = [])).
Proof.
  unfold traffic.synthesize. destruct sockaddr as [sa|].
  2:{ eexists. split; [reflexivity|]. left. reflexivity. }
  eexists. split; [reflexivity|].
  destruct ((request.QType state =? dns.TypeA)%Z
            || (request.QType state =? dns.TypeAAAA)%Z).
  { left. apply address_answer_invariant. }
  destruct (Z.eqb_spec (request.QType state) dns.TypeSRV) as [Hq|_].
  2:{ left. reflexivity. }
  destruct (srv_loop_sections state cluster (fst (xds.All (c t) cluster (health t)))
              0 (dns.set_Extra [] (dns.set_Answer [] (reply r))))
    as (Ha & _ & Hn & Hr).
  destruct (fst (xds.All (c t) cluster (health t))) as [|sa0 rest] eqn:Hall.
  - right. repeat split; try assumption; try reflexivity. discriminate.
  - left. apply invariant_of_answer.
    + rewrite Ha. discriminate.
    + rewrite Hn. reflexivity.
    + left. rewrite Hr. reflexivity.
Qed.

(** [ServeDNS] writes exactly one message and returns 0, or panics having
    written nothing. *)
Lemma ServeDNS_outcome t now w r :
  (exists m, ServeDNS t now w r = Return 0 (w ++ [m]))
  \/ ServeDNS t now w r = Panic w.
Proof.
  destruct (snd (xds.Select (c t) (fst (classify t r)) (health t))) eqn:Hok.
  { rewrite ServeDNS_found by exact Hok.
    destruct (synthesize_outcome t now (state_of t w r) r (fst (classify t r))
                (fst (xds.Select (c t) (fst (classify t r)) (health t))))
      as (m & E & _).
    left. exists m. exact E. }
  destruct (dns.SplitDomainName (fst (classify t r)))
    as [|l0 [|l1 [|l2 [|l3 rest]]]] eqn:Hs.
  1,2,5: rewrite ServeDNS_other_labels by (rewrite ?Hs; simpl; congruence);
         left; eexists; reflexivity.
  - rewrite (ServeDNS_two_labels t now w r l0 l1 Hok Hs).
    destruct (strings.ToLower l0 =? "_tcp"); [left; eexists; reflexivity|].
    destruct (strings.HasPrefix (strings.ToLower l0) "endpoint-").
    + destruct (negb (snd (xds.Select (c t) l1 (health t))));
        [left; eexists; reflexivity|].
      destruct (serveEndpoint_outcome t now (state_of t w r) l0 l1)
        as [(m & E & _)|[E _]].
      * left. exists m. exact E.
      * right. exact E.
    + destruct (synthesize_outcome t now (state_of t w r) r (fst (classify t r))
                (fst (xds.Select (c t) (fst (classify t r)) (health t))))
        as (m & E & _).
      left. exists m. exact E.
  - rewrite (ServeDNS_three_labels t now w r l0 l1 l2 Hok Hs).
    destruct (negb (strings.ToLower l0 =? "_grpclb")
              || negb (strings.ToLower l1 =? "_tcp"));
      [left; eexists; reflexivity|].
    destruct (synthesize_outcome t now (state_of t w r) r (mgmt t)
                (fst (xds.Select (c t) (mgmt t) (health t))))
      as (m & E & _).
    left. exists m. exact E.
Qed.

(** *** The zone of a query *)

(** C3, as amended: the zone of a query is the first configured zone that is
    a plain string suffix of the lower-cased query name; the comparison
    looks at no label boundary.  When no configured zone is such a suffix,
    cluster and zone are both empty. *)
Theorem zone_is_first_plain_suffix t r :
  let name := strings.ToLower (request.QName (request.mkRequest r [] "")) in
  (exists pre o post,
      origins t = pre ++ o :: post
      /\ Forall (fun z => ~ exists p, name = (p ++ z)%string) pre
      /\ (exists p, name = (p ++ o)%string)
      /\ snd (classify t r) = o)
  \/ (Forall (fun z => ~ exists p, name = (p ++ z)%string) (origins t)
      /\ classify t r = ("", "")).
Proof.
  intros name. unfold traffic.classify.
  change (request.Name (request.mkRequest r [] "")) with name.
  destruct (find_origin_spec name (origins t))
    as [(pre & o & post & E & Hpre & Ho & Hf)|[Hall Hf]].
  - left. exists pre, o, post. repeat split.
    + exact E.
    + eapply Forall_impl; [|exact Hpre]. intros z Hz.
      now apply strings_facts.HasSuffix_false_iff.
    + now apply strings_facts.HasSuffix_iff.
    + now rewrite Hf.
  - right. split; [|exact Hf].
    eapply Forall_impl; [|exact Hall]. intros z Hz.
    now apply strings_facts.HasSuffix_false_iff.
Qed.

(** *** The endpoint form *)

Lemma endpoint_label_length (l0 : string) :
  strings.HasPrefix (strings.ToLower l0) "endpoint-" = true ->
  (9 <= String.length l0)%nat.
Proof.
  unfold strings.HasPrefix. intros H. apply andb_true_iff in H as [H _].
  apply Nat.leb_le in H. revert H. clear.
  assert (L : forall s, String.length (strings.ToLower s) = String.length s).
  { induction s as [|ch s IH]; simpl; congruence. }
  rewrite L. simpl. lia.
Qed.

(** From an [endpoint-] label, [serveEndpoint] reaches the bounds check
    with the integer that follows the hyphen. *)
Lemma serveEndpoint_parsed t now state l0 cluster nr :
  strings.HasPrefix (strings.ToLower l0) "endpoint-" = true ->
  strconv.Atoi (strings.slice_from 9 l0) = Some nr ->
  serveEndpoint t now state l0 cluster
  = let sockaddrs := fst (xds.All (c t) cluster (health t)) in
    if (Z.of_nat (List.length sockaddrs) <? nr)%Z then
      write_soa now state (reply (request.Req state)) dns.RcodeNameError
    else
      match at_index sockaddrs nr with
      | None => Panic (request.W state)
      | Some sa =>
          Return 0 (dns.WriteMsg (request.W state)
            (if (request.QType state =? dns.TypeA)%Z
                || (request.QType state =? dns.TypeAAAA)%Z
             then address_answer now state (reply (request.Req state)) (xds.Address sa)
             else dns.set_Ns (soa now (request.Zone state))
                             (reply (request.Req state))))
      end.
Proof.
  intros Hp Hnr. unfold traffic.serveEndpoint.
  rewrite (strings_facts.Index_endpoint l0 Hp).
  pose proof (endpoint_label_length l0 Hp) as Hlen.
  replace (8 =? Z.of_nat (String.length l0))%Z with false
    by (symmetry; apply Z.eqb_neq; lia).
  change (Z.to_nat (8 + 1)) with 9%nat. cbn [Z.eqb orb].
  now rewrite Hnr.
Qed.

(** An index beyond the length of the list is answered with NXDOMAIN. *)
Lemma serveEndpoint_beyond_length t now state l0 cluster nr :
  strings.HasPrefix (strings.ToLower l0) "endpoint-" = true ->
  strconv.Atoi (strings.slice_from 9 l0) = Some nr ->
  (Z.of_nat (List.length (fst (xds.All (c t) cluster (health t)))) < nr)%Z ->
  serveEndpoint t now state l0 cluster
  = write_soa now state (reply (request.Req state)) dns.RcodeNameError.
Proof.
  intros Hp Hnr Hlt. rewrite (serveEndpoint_parsed _ _ _ _ _ _ Hp Hnr).
  cbv zeta. now apply Z.ltb_lt in Hlt as ->.
Qed.

(** An index equal to the length of the list, or a negative one, passes the
    bounds check and the indexing panics. *)
Lemma serveEndpoint_panics t now state l0 cluster nr :
  strings.HasPrefix (strings.ToLower l0) "endpoint-" = true ->
  strconv.Atoi (strings.slice_from 9 l0) = Some nr ->
  (nr < 0 \/ nr = Z.of_nat (List.length (fst (xds.All (c t) cluster (health t)))))%Z ->
  serveEndpoint t now state l0 cluster = Panic (request.W state).
Proof.
  intros Hp Hnr Hr. rewrite (serveEndpoint_parsed _ _ _ _ _ _ Hp Hnr).
  cbv zeta.
  replace (Z.of_nat (List.length (fst (xds.All (c t) cluster (health t)))) <? nr)%Z
    with false by (symmetry; apply Z.ltb_ge; lia).
  replace (at_index (fst (xds.All (c t) cluster (health t))) nr)
    with (@None xds.SocketAddress); [reflexivity|].
  symmetry. apply at_index_None. lia.
Qed.

(** C8, as amended: an [endpoint-N.cluster] query of type A (or AAAA) whose
    whole subject is not itself a cluster of the provider (the direct lookup
    fails) and whose cluster the provider knows ([Select] succeeds), with N
    within the list [All(cluster)] returns and the Nth endpoint of the
    queried family, is answered NOERROR with the single A (or AAAA) record
    that carries the address of that Nth endpoint. *)
Theorem endpoint_index_answers_nth t now w r l0 l1 nr ep :
  dns.SplitDomainName (fst (classify t r)) = [l0; l1] ->
  snd (xds.Select (c t) (fst (classify t r)) (health t)) = false ->
  strings.HasPrefix (strings.ToLower l0) "endpoint-" = true ->
  snd (xds.Select (c t) l1 (health t)) = true ->
  strconv.Atoi (strings.slice_from 9 l0) = Some nr ->
  (0 <= nr)%Z ->
  nth_error (fst (xds.All (c t) l1 (health t))) (Z.to_nat nr) = Some ep ->
  (request.QType (state_of t w r) = dns.TypeA ->
   net.To4 (xds.Address ep) <> None ->
   exists m, ServeDNS t now w r = Return 0 (w ++ [m])
     /\ dns.Rcode m = dns.RcodeSuccess /\ dns.Ns m = []
     /\ dns.Answer m
        = [dns.A (dns.mkHdr (request.QName (state_of t w r)) dns.TypeA dns.ClassINET 5)
                 (xds.Address ep)])
  /\ (request.QType (state_of t w r) = dns.TypeAAAA ->
      net.To4 (xds.Address ep) = None ->
      exists m, ServeDNS t now w r = Return 0 (w ++ [m])
        /\ dns.Rcode m = dns.RcodeSuccess /\ dns.Ns m = []
        /\ dns.Answer m
           = [dns.AAAA (dns.mkHdr (request.QName (state_of t w r)) dns.TypeAAAA
                                  dns.ClassINET 5)
                       (xds.Address ep)]).
Proof.
  intros Hs Hmiss Hp Hok Hnr Hpos Hnth.
  rewrite (ServeDNS_two_labels t now w r l0 l1 Hmiss Hs).
  rewrite (strings_facts.endpoint_prefix_not_tcp l0 Hp), Hp, Hok. cbn [negb].
  rewrite (serveEndpoint_parsed _ _ _ _ _ _ Hp Hnr). cbv zeta.
  assert (Hlen : (Z.to_nat nr < List.length (fst (xds.All (c t) l1 (health t))))%nat).
  { apply nth_error_Some. congruence. }
  replace (Z.of_nat (List.length (fst (xds.All (c t) l1 (health t)))) <? nr)%Z
    with false by (symmetry; apply Z.ltb_ge; lia).
  replace (at_index (fst (xds.All (c t) l1 (health t))) nr) with (Some ep)
    by (symmetry; apply at_index_Some; auto).
  unfold traffic.address_answer. split; intros Hq H4; rewrite Hq.
  - destruct (net.To4 (xds.Address ep)); [|now elim H4].
    eexists. repeat split.
  - rewrite H4. eexists. repeat split.
Qed.

(** *** The SRV answer *)


(** *** Negative answers *)

(** C6, as amended: when the direct lookup of the full subject fails, a
    subject of two labels whose first label is [_tcp] (case-insensitively)
    is answered NOERROR with an empty answer section and the synthetic SOA,
    whatever the provider knows about the second label. *)
Theorem bare_tcp_is_nodata t now w r l0 l1 :
  dns.SplitDomainName (fst (classify t r)) = [l0; l1] ->
  strings.ToLower l0 = "_tcp" ->
  snd (xds.Select (c t) (fst (classify t r)) (health t)) = false ->
  exists m,
    ServeDNS t now w r = Return 0 (w ++ [m])
    /\ dns.Rcode m = dns.RcodeSuccess
    /\ dns.Answer m = []
    /\ dns.Ns m = soa now (snd (classify t r)).
Proof.
  intros Hs Hl Hmiss.
  rewrite (ServeDNS_two_labels t now w r l0 l1 Hmiss Hs), Hl.
  eexists. repeat split.
Qed.

(** A subject of two labels whose first label is neither [_tcp] nor starts
    with [endpoint-] leaves the switch without an answer; with the [nil]
    endpoint of the failed lookup it is answered with the SOA and the rcode
    the reply started with, which is success. *)
Lemma other_two_labels_is_nodata t now w r l0 l1 :
  dns.SplitDomainName (fst (classify t r)) = [l0; l1] ->
  strings.ToLower l0 <> "_tcp" ->
  strings.HasPrefix (strings.ToLower l0) "endpoint-" = false ->
  xds.Select (c t) (fst (classify t r)) (health t) = (None, false) ->
  exists m,
    ServeDNS t now w r = Return 0 (w ++ [m])
    /\ dns.Rcode m = dns.RcodeSuccess
    /\ dns.Answer m = []
    /\ dns.Ns m = soa now (snd (classify t r)).
Proof.
  intros Hs Hl Hp Hsel.
  rewrite (ServeDNS_two_labels t now w r l0 l1) by (rewrite ?Hsel; auto).
  apply String.eqb_neq in Hl. rewrite Hl, Hp, Hsel.
  eexists. repeat split.
Qed.

(** When the direct lookup of the whole subject fails, a subject of two
    labels whose first label starts with [endpoint-] and does not continue
    with an integer is answered with NXDOMAIN, whether the cluster of the
    second label exists or not. *)
Lemma malformed_endpoint_is_nxdomain t now w r l0 l1 :
  dns.SplitDomainName (fst (classify t r)) = [l0; l1] ->
  snd (xds.Select (c t) (fst (classify t r)) (health t)) = false ->
  strings.HasPrefix (strings.ToLower l0) "endpoint-" = true ->
  strconv.Atoi (strings.slice_from 9 l0) = None ->
  exists m,
    ServeDNS t now w r = Return 0 (w ++ [m])
    /\ dns.Rcode m = dns.RcodeNameError
    /\ dns.Answer m = []
    /\ dns.Ns m = soa now (snd (classify t r)).
Proof.
  intros Hs Hmiss Hp Hnr.
  rewrite (ServeDNS_two_labels t now w r l0 l1 Hmiss Hs).
  rewrite (strings_facts.endpoint_prefix_not_tcp l0 Hp), Hp.
  destruct (negb (snd (xds.Select (c t) l1 (health t)))).
  { eexists. repeat split. }
  unfold traffic.serveEndpoint.
  rewrite (strings_facts.Index_endpoint l0 Hp).
  pose proof (endpoint_label_length l0 Hp) as Hlen.
  replace (8 =? Z.of_nat (String.length l0))%Z with false
    by (symmetry; apply Z.eqb_neq; lia).
  change (Z.to_nat (8 + 1)) with 9%nat. cbn [Z.eqb orb]. rewrite Hnr.
  eexists. repeat split.
Qed.

(** C5, as amended: every message [ServeDNS] writes has rcode NOERROR or
    NXDOMAIN and exactly one of a non-empty answer section and the
    synthetic SOA, except for an SRV query on a cluster of which [Select]
    gave an endpoint and [All] gives none: that one is written with rcode
    NOERROR and both sections empty. *)
Theorem emitted_response_invariant t now w r code w' :
  ServeDNS t now w r = Return code w' ->
  exists m,
    w' = w ++ [m] /\ code = 0%Z
    /\ (response_invariant m = true
        \/ (request.QType (state_of t w r) = dns.TypeSRV
            /\ dns.Answer m = [] /\ dns.Ns m = []
            /\ dns.Rcode m = dns.RcodeSuccess
            /\ exists cluster,
                 fst (xds.Select (c t) cluster (health t)) <> None
                 /\ fst (xds.All (c t) cluster (health t)) = [])).
Proof.
  set (goal := exists m,
    w' = w ++ [m] /\ code = 0%Z
    /\ (response_invariant m = true
        \/ (request.QType (state_of t w r) = dns.TypeSRV
            /\ dns.Answer m = [] /\ dns.Ns m = []
            /\ dns.Rcode m = dns.RcodeSuccess
            /\ exists cluster,
                 fst (xds.Select (c t) cluster (health t)) <> None
                 /\ fst (xds.All (c t) cluster (health t)) = []))).
  assert (S : forall cluster,
             synthesize t now (state_of t w r) (reply r) cluster
                        (fst (xds.Select (c t) cluster (health t)))
             = Return code w' -> goal).
  { intros cluster E.
    destruct (synthesize_outcome t now (state_of t w r) r cluster
                (fst (xds.Select (c t) cluster (health t))))
      as (m & E' & Hm).
    rewrite E' in E. injection E as <- <-. exists m. repeat split.
    destruct Hm as [Hm|(Hq & Ha & Hn & Hr & Hsel & Hall)]; [now left|].
    right. repeat split; auto. now exists cluster. }
  assert (W : forall rcode,
             rcode = dns.RcodeSuccess \/ rcode = dns.RcodeNameError ->
             write_soa now (state_of t w r) (reply r) rcode = Return code w' ->
             goal).
  { intros rcode Hr E.
    destruct (write_soa_invariant now (state_of t w r) r rcode Hr) as (m & E' & Hm).
    rewrite E' in E. injection E as <- <-. exists m. repeat split. now left. }
  destruct (snd (xds.Select (c t) (fst (classify t r)) (health t))) eqn:Hok.
  { rewrite ServeDNS_found by exact Hok. apply S. }
  destruct (dns.SplitDomainName (fst (classify t r)))
    as [|l0 [|l1 [|l2 [|l3 rest]]]] eqn:Hs.
  1,2,5: rewrite ServeDNS_other_labels by (rewrite ?Hs; simpl; congruence);
         apply W; now right.
  - rewrite (ServeDNS_two_labels t now w r l0 l1 Hok Hs).
    destruct (strings.ToLower l0 =? "_tcp"); [apply W; now left|].
    destruct (strings.HasPrefix (strings.ToLower l0) "endpoint-"); [|apply S].
    destruct (negb (snd (xds.Select (c t) l1 (health t)))); [apply W; now right|].
    intros E.
    destruct (serveEndpoint_outcome t now (state_of t w r) l0 l1)
      as [(m & E' & Hm)|[E' _]]; rewrite E' in E; [|discriminate].
    injection E as <- <-. exists m. repeat split. now left.
  - rewrite (ServeDNS_three_labels t now w r l0 l1 l2 Hok Hs).
    destruct (negb (strings.ToLower l0 =? "_grpclb")
              || negb (strings.ToLower l1 =? "_tcp")); [apply W; now right | apply S].
Qed.

(** *** The management cluster *)

Lemma synthesize_ext t t' now state m cluster sockaddr :
  health t' = health t ->
  xds.All (c t') cluster (health t) = xds.All (c t) cluster (health t) ->
  synthesize t' now state m cluster sockaddr
  = synthesize t now state m cluster sockaddr.
Proof.
  intros Hh Ha. unfold traffic.synthesize. now rewrite Hh, Ha.
Qed.

(** C9: a subject [_grpclb._tcp.<cluster>] (first two labels compared
    case-insensitively) that the direct lookup did not satisfy is answered
    from the management cluster alone: the answer is what the end of
    [ServeDNS] makes of [Select(mgmt)] and [All(mgmt)], so that it is the
    same under every provider that agrees on the management cluster; and
    when the provider has no endpoint for the management cluster, the
    answer is still written: NOERROR, empty, with the synthetic SOA. *)
Theorem grpclb_uses_management_cluster t now w r l0 l1 l2 :
  dns.SplitDomainName (fst (classify t r)) = [l0; l1; l2] ->
  strings.ToLower l0 = "_grpclb" ->
  strings.ToLower l1 = "_tcp" ->
  snd (xds.Select (c t) (fst (classify t r)) (health t)) = false ->
  ServeDNS t now w r
  = synthesize t now (state_of t w r) (reply r) (mgmt t)
               (fst (xds.Select (c t) (mgmt t) (health t)))
  /\ (forall t',
        origins t' = origins t -> mgmt t' = mgmt t -> health t' = health t ->
        snd (xds.Select (c t') (fst (classify t r)) (health t)) = false ->
        xds.Select (c t') (mgmt t) (health t) = xds.Select (c t) (mgmt t) (health t) ->
        xds.All (c t') (mgmt t) (health t) = xds.All (c t) (mgmt t) (health t) ->
        ServeDNS t' now w r = ServeDNS t now w r)
  /\ (fst (xds.Select (c t) (mgmt t) (health t)) = None ->
      exists m,
        ServeDNS t now w r = Return 0 (w ++ [m])
        /\ dns.Rcode m = dns.RcodeSuccess
        /\ dns.Answer m = []
        /\ dns.Ns m = soa now (snd (classify t r))).
Proof.
  intros Hs H0 H1 Hmiss.
  assert (E : ServeDNS t now w r
              = synthesize t now (state_of t w r) (reply r) (mgmt t)
                           (fst (xds.Select (c t) (mgmt t) (health t)))).
  { rewrite (ServeDNS_three_labels t now w r l0 l1 l2 Hmiss Hs), H0, H1.
    reflexivity. }
  split; [exact E|]. split.
  - intros t' Ho Hm Hh Hmiss' Hsel Hall.
    assert (Hc : classify t' r = classify t r).
    { unfold traffic.classify. now rewrite Ho. }
    rewrite E.
    rewrite (ServeDNS_three_labels t' now w r l0 l1 l2)
      by (rewrite ?Hc, ?Hh; assumption).
    rewrite H0, H1. cbn [String.eqb negb orb].
    unfold traffic.state_of. rewrite Hc, Hm, Hh, Hsel.
    apply synthesize_ext; assumption.
  - intros Hnone. rewrite E, Hnone. eexists. repeat split.
Qed.

(** *** No zone *)

(** C10: a query whose name ends in none of the configured zones is
    answered by [ServeDNS] itself, whatever the next handler is: cluster and
    zone are the empty string, the empty cluster has no labels, and when the
    provider has no cluster of that name the answer is NXDOMAIN with the
    synthetic SOA of the empty zone. *)
Theorem no_zone_is_nxdomain t now w r next :
  Forall (fun o => strings.HasSuffix (request.Name (request.mkRequest r w "")) o = false)
         (origins t) ->
  snd (xds.Select (c t) "" (health t)) = false ->
  classify t r = ("", "")
  /\ dns.SplitDomainName (fst (classify t r)) = []
  /\ (exists m,
        ServeDNS t now w r = Return 0 (w ++ [m])
        /\ dns.Rcode m = dns.RcodeNameError
        /\ dns.Answer m = []
        /\ dns.Ns m = soa now "")
  /\ ServeDNS (set_Next next t) now w r = ServeDNS t now w r.
Proof.
  intros Hall Hmiss.
  assert (Hc : classify t r = ("", "")).
  { unfold traffic.classify.
    change (request.Name (request.mkRequest r [] ""))
      with (request.Name (request.mkRequest r w "")).
    destruct (find_origin_spec (request.Name (request.mkRequest r w "")) (origins t))
      as [(pre & o & post & E & _ & Ho & _)|[_ Hf]]; [|exact Hf].
    rewrite E in Hall. apply Forall_app in Hall as [_ Hall].
    inversion Hall; congruence. }
  split; [exact Hc|]. rewrite Hc. cbn [fst]. split; [reflexivity|]. split.
  - rewrite ServeDNS_other_labels; rewrite ?Hc; cbn [fst]; auto; try discriminate.
    unfold traffic.state_of. rewrite Hc. eexists. repeat split.
  - reflexivity.
Qed.

End Properties.

(** ** The scenarios *)

Import scenario.

(** The scenarios of the specification, run on the handler. *)
Example scenario_1_A_record :
  exists m, serve provider "web.example.org." dns.TypeA = Return 0 [m]
    /\ dns.Rcode m = dns.RcodeSuccess
    /\ dns.Answer m
       = [dns.A (dns.mkHdr "web.example.org." dns.TypeA dns.ClassINET 5)
                (ipv4 10 0 0 1)].
Proof. eexists. repeat split. Qed.

Example scenario_2_other_family :
  exists m, serve provider "web.example.org." dns.TypeAAAA = Return 0 [m]
    /\ dns.Rcode m = dns.RcodeSuccess /\ dns.Answer m = []
    /\ dns.Ns m = soa dnsutil.Join clock "example.org.".
Proof. eexists. repeat split. Qed.

Example scenario_4_index_beyond_length :
  exists m, serve provider "endpoint-5.web.example.org." dns.TypeA = Return 0 [m]
    /\ dns.Rcode m = dns.RcodeNameError /\ dns.Answer m = []
    /\ dns.Ns m = soa dnsutil.Join clock "example.org.".
Proof. eexists. repeat split. Qed.

Example scenario_5_grpclb :
  exists m, serve provider "_grpclb._tcp.web.example.org." dns.TypeSRV = Return 0 [m]
    /\ dns.Rcode m = dns.RcodeSuccess
    /\ dns.Answer m
       = [dns.SRV (dns.mkHdr "_grpclb._tcp.web.example.org." dns.TypeSRV dns.ClassINET 5)
                  100 100 7000 "endpoint-0.mgmt.example.org."].
Proof. eexists. repeat split. Qed.

(** An upper-case query name finds the lower-case zone. *)
Example upper_case_query_matches :
  classify dnsutil.TrimZone (plugin_with provider) (query "WEB.EXAMPLE.ORG." dns.TypeA)
  = ("web", "example.org.").
Proof. reflexivity. Qed.

(** C1: with one endpoint in [All("web")], the query
    [endpoint-1.web.example.org.] has an index equal to the length of the
    list; the bounds check [len(sockaddrs) < nr] lets it through and
    [sockaddrs[nr]] panics: no NXDOMAIN is written. *)
Theorem index_equal_to_length_panics :
  Z.of_nat (List.length (fst (xds.All provider "web" false))) = 1%Z
  /\ strconv.Atoi (strings.slice_from 9 "endpoint-1") = Some 1%Z
  /\ serve provider "endpoint-1.web.example.org." dns.TypeA = Panic [].
Proof. repeat split. Qed.

(** C2: two queries on which [ServeDNS] performs an out-of-bounds access
    and writes no message: an index equal to the length of the list, and a
    negative index. *)
Theorem adversarial_index_panics :
  serve provider2 "endpoint-2.web.example.org." dns.TypeAAAA = Panic []
  /\ strconv.Atoi (strings.slice_from 9 "endpoint--1") = Some (-1)%Z
  /\ serve provider "endpoint--1.web.example.org." dns.TypeA = Panic []
  /\ written (serve provider "endpoint--1.web.example.org." dns.TypeA) = [].
Proof. repeat split. Qed.

(** C3, the claim as stated fails: [fooexample.org.] does not end in the
    zone [example.org.] at a label boundary, and [ServeDNS] takes
    [example.org.] as its zone. *)
Lemma raw_suffix_counterexample :
  first_label_boundary_zone "fooexample.org." ["example.org."] = None
  /\ snd (classify dnsutil.TrimZone (plugin_with provider)
                   (query "fooexample.org." dns.TypeA)) = "example.org."
  /\ exists m, serve provider "fooexample.org." dns.TypeA = Return 0 [m]
       /\ dns.Ns m = soa dnsutil.Join clock "example.org.".
Proof. repeat split. eexists. repeat split. Qed.

(** C4: the subject [foo.web] has two labels, the first neither [_tcp] nor
    [endpoint-<integer>], and the direct lookup fails; the answer has rcode
    NOERROR, not NXDOMAIN. *)
Theorem other_two_labels_answer_noerror :
  dns.SplitDomainName "foo.web" = ["foo"; "web"]
  /\ xds.Select provider "foo.web" false = (None, false)
  /\ exists m, serve provider "foo.web.example.org." dns.TypeA = Return 0 [m]
       /\ dns.Rcode m = dns.RcodeSuccess
       /\ dns.Rcode m <> dns.RcodeNameError
       /\ dns.Answer m = []
       /\ dns.Ns m = soa dnsutil.Join clock "example.org.".
Proof. repeat split. eexists. repeat split. discriminate. Qed.

(** C5, the claim as stated fails: an SRV query on a cluster whose list of
    endpoints is empty is answered with an empty answer section and an
    empty authority section. *)
Lemma srv_empty_list_counterexample :
  exists m, serve provider_emptied "web.example.org." dns.TypeSRV = Return 0 [m]
    /\ dns.Answer m = [] /\ dns.Ns m = []
    /\ response_invariant m = false.
Proof. eexists. repeat split. Qed.

(** C6, the claim as stated fails: under a provider that has a cluster
    named [_tcp.web], the subject [_tcp.web] is answered with that
    cluster's address. *)
Lemma tcp_cluster_counterexample :
  dns.SplitDomainName "_tcp.web" = ["_tcp"; "web"]
  /\ exists m, serve provider_tcp "_tcp.web.example.org." dns.TypeA = Return 0 [m]
       /\ dns.Answer m
          = [dns.A (dns.mkHdr "_tcp.web.example.org." dns.TypeA dns.ClassINET 5)
                   (ipv4 10 0 0 1)]
       /\ dns.Ns m = [].
Proof. split; [reflexivity|]. eexists. repeat split. Qed.

(** *** The theorems at the scenarios *)

Lemma emitted_response_invariant_witness :
  exists m,
    written (serve provider "web.example.org." dns.TypeA) = [] ++ [m]
    /\ 0%Z = 0%Z
    /\ (response_invariant m = true
        \/ (request.QType (state_of dnsutil.TrimZone (plugin_with provider) []
                                    (query "web.example.org." dns.TypeA)) = dns.TypeSRV
            /\ dns.Answer m = [] /\ dns.Ns m = []
            /\ dns.Rcode m = dns.RcodeSuccess
            /\ exists cluster,
                 fst (xds.Select (c (plugin_with provider)) cluster
                                 (health (plugin_with provider))) <> None
                 /\ fst (xds.All (c (plugin_with provider)) cluster
                                 (health (plugin_with provider))) = [])).
Proof.
  apply (emitted_response_invariant dnsutil.TrimZone dnsutil.Join
           (plugin_with provider) clock [] (query "web.example.org." dns.TypeA)
           0%Z (written (serve provider "web.example.org." dns.TypeA))).
  reflexivity.
Defined.

Lemma bare_tcp_is_nodata_witness :
  exists m,
    serve provider "_tcp.web.example.org." dns.TypeA = Return 0 ([] ++ [m])
    /\ dns.Rcode m = dns.RcodeSuccess
    /\ dns.Answer m = []
    /\ dns.Ns m = soa dnsutil.Join clock "example.org.".
Proof.
  apply (bare_tcp_is_nodata dnsutil.TrimZone dnsutil.Join
           (plugin_with provider) clock [] (query "_tcp.web.example.org." dns.TypeA)
           "_tcp" "web"); reflexivity.
Defined.



Lemma endpoint_index_answers_nth_witness :
  exists m,
    serve provider2 "Endpoint-1.web.example.org." dns.TypeAAAA = Return 0 ([] ++ [m])
    /\ dns.Rcode m = dns.RcodeSuccess /\ dns.Ns m = []
    /\ dns.Answer m
       = [dns.AAAA (dns.mkHdr "Endpoint-1.web.example.org." dns.TypeAAAA dns.ClassINET 5)
                   (xds.Address web2)].
Proof.
  apply (endpoint_index_answers_nth dnsutil.TrimZone dnsutil.Join
           (plugin_with provider2) clock []
           (query "Endpoint-1.web.example.org." dns.TypeAAAA)
           "endpoint-1" "web" 1%Z web2); try reflexivity.
  discriminate.
Defined.

(** C8, the claim as stated fails: index 0 is within [All("web")], whose
    element 0 is the IPv4 endpoint 10.0.0.1, and the A query
    [endpoint-0.web.example.org.] is answered with the address 10.0.0.7,
    because the provider has a cluster named [endpoint-0.web] and the direct
    lookup of the whole subject comes first. *)
Lemma endpoint_named_cluster_counterexample :
  dns.SplitDomainName "endpoint-0.web" = ["endpoint-0"; "web"]
  /\ strconv.Atoi (strings.slice_from 9 "endpoint-0") = Some 0%Z
  /\ nth_error (fst (xds.All provider_endpoint_named "web" false)) 0 = Some web1
  /\ net.To4 (xds.Address web1) = Some [10; 0; 0; 1]%Z
  /\ exists m,
       serve provider_endpoint_named "endpoint-0.web.example.org." dns.TypeA
       = Return 0 [m]
       /\ dns.Answer m
          = [dns.A (dns.mkHdr "endpoint-0.web.example.org." dns.TypeA dns.ClassINET 5)
                   (ipv4 10 0 0 7)]
       /\ dns.Answer m
          <> [dns.A (dns.mkHdr "endpoint-0.web.example.org." dns.TypeA dns.ClassINET 5)
                    (xds.Address web1)].
Proof.
  repeat split. eexists. repeat split. discriminate.
Qed.

Lemma grpclb_uses_management_cluster_witness :
  exists m,
    serve provider_no_mgmt "_GRPCLB._tcp.web.example.org." dns.TypeSRV
    = Return 0 ([] ++ [m])
    /\ dns.Rcode m = dns.RcodeSuccess
    /\ dns.Answer m = []
    /\ dns.Ns m = soa dnsutil.Join clock "example.org.".
Proof.
  apply (grpclb_uses_management_cluster dnsutil.TrimZone dnsutil.Join
           (plugin_with provider_no_mgmt) clock []
           (query "_GRPCLB._tcp.web.example.org." dns.TypeSRV)
           "_grpclb" "_tcp" "web"); reflexivity.
Defined.

Lemma no_zone_is_nxdomain_witness :
  exists m,
    serve provider "web.example.com." dns.TypeA = Return 0 ([] ++ [m])
    /\ dns.Rcode m = dns.RcodeNameError
    /\ dns.Answer m = []
    /\ dns.Ns m = soa dnsutil.Join clock "".
Proof.
  apply (no_zone_is_nxdomain dnsutil.TrimZone dnsutil.Join
           (plugin_with provider) clock [] (query "web.example.com." dns.TypeA) None).
  - repeat constructor.
  - reflexivity.
Defined.

End traffic_facts.

(** ** Further properties of the handler *)

Module traffic_more.

Import plugin traffic traffic_facts.

(** *** [%d] and [Atoi] *)

Lemma digits_of_uint (d : Decimal.uint) :
  forall acc : nat,
    strconv.digits (NilEmpty.string_of_uint d) (Z.of_nat acc)
    = Some (Z.of_nat (Nat.of_uint_acc d acc)).
Proof.
  induction d as [|d IH|d IH|d IH|d IH|d IH|d IH|d IH|d IH|d IH|d IH];
    intros acc; [reflexivity|..];
    cbn [NilEmpty.string_of_uint strconv.digits Nat.of_uint_acc];
    rewrite Nat.tail_mul_spec;
    match goal with
    | |- context [Nat.of_uint_acc d ?a] => rewrite <- (IH a)
    end;
    match goal with
    | |- match strconv.digit_value ?ch with _ => _ end = _ =>
        change (strconv.digit_value ch)
          with (Some (Z.of_nat (nat_of_ascii ch - 48)))
    end;
    cbv iota; f_equal;
    match goal with
    | |- context [(nat_of_ascii ?ch - 48)%nat] =>
        let v := eval vm_compute in (nat_of_ascii ch - 48)%nat in
        change (nat_of_ascii ch - 48)%nat with v
    end; lia.
Qed.

Lemma decimal_not_empty (n : nat) :
  exists ch rest,
    fmt.decimal n = String ch rest
    /\ ch <> "-"%char /\ ch <> "+"%char.
Proof.
  unfold fmt.decimal, NilZero.string_of_uint.
  destruct (Nat.to_uint n); cbn [NilEmpty.string_of_uint];
    eexists; eexists; (split; [reflexivity | split; discriminate]).
Qed.

Lemma digits_decimal (n : nat) :
  strconv.digits (fmt.decimal n) 0 = Some (Z.of_nat n).
Proof.
  unfold fmt.decimal, NilZero.string_of_uint.
  pose proof (DecimalNat.Unsigned.of_to n) as E. unfold Nat.of_uint in E.
  pose proof (digits_of_uint (Nat.to_uint n) 0) as D. rewrite E in D.
  destruct (Nat.to_uint n) eqn:U; exact D.
Qed.

Lemma Atoi_of_decimal (n : nat) :
  (Z.of_nat n <= strconv.maxInt)%Z ->
  strconv.Atoi (fmt.decimal n) = Some (Z.of_nat n).
Proof.
  intros Hmax. unfold strconv.Atoi.
  destruct (decimal_not_empty n) as (ch & rest & E & Hm & Hp).
  assert (Hsign : match fmt.decimal n with
                  | String "-" r => (true, r)
                  | String "+" r => (false, r)
                  | _ => (false, fmt.decimal n)
                  end = (false, fmt.decimal n)).
  { rewrite E. clear E.
    destruct ch as [[] [] [] [] [] [] [] []]; try reflexivity;
      [now elim Hp | now elim Hm]. }
  rewrite Hsign. rewrite digits_decimal. rewrite E.
  assert (Hmin : (strconv.minInt <= Z.of_nat n)%Z).
  { unfold strconv.minInt. lia. }
  apply Z.leb_le in Hmax, Hmin. now rewrite Hmax, Hmin.
Qed.

(** What [%d] prints for a slice index, [Atoi] reads back as that index:
    the label [endpoint-%d] of an SRV target carries its index. *)
Theorem Atoi_decimal (n : nat) :
  (Z.of_nat n <= strconv.maxInt)%Z ->
  strconv.Atoi (fmt.decimal n) = Some (Z.of_nat n).
Proof. exact (Atoi_of_decimal n). Qed.

Lemma Atoi_decimal_witness : strconv.Atoi (fmt.decimal 42) = Some 42%Z.
Proof.
  apply (Atoi_decimal 42). unfold strconv.maxInt. lia.
Defined.

Section Further.

Variable TrimZone : string -> string -> string * bool.
Variable Join : list string -> string.

Local Abbreviation soa := (soa Join).
Local Abbreviation synthesize := (synthesize Join).
Local Abbreviation serveEndpoint := (serveEndpoint Join).
Local Abbreviation ServeDNS := (ServeDNS TrimZone Join).
Local Abbreviation classify := (classify TrimZone).
Local Abbreviation state_of := (state_of TrimZone).
Local Abbreviation write_soa := (write_soa Join).
Local Abbreviation address_answer := (address_answer Join).
Local Abbreviation written_form := (written_form Join).

(** *** The messages the handler writes *)

(** The SRV loop touches the answer and the additional section only. *)
Lemma srv_loop_header (state : request.Request) (cluster : string)
      (sockaddrs : list xds.SocketAddress) :
  forall i m,
    header_of (srv_loop state cluster i sockaddrs m) = header_of m.
Proof.
  induction sockaddrs as [|sa rest IH]; intros i m; cbn [srv_loop].
  - reflexivity.
  - rewrite IH. reflexivity.
Qed.

Lemma write_soa_form t now state rcode :
  rcode = dns.RcodeSuccess \/ rcode = dns.RcodeNameError ->
  exists m, write_soa now state (reply (request.Req state)) rcode
            = Return 0 (request.W state ++ [m])
            /\ written_form t now state m.
Proof.
  intros Hr. eexists. split; [reflexivity|]. left. exists rcode. now split.
Qed.

Lemma address_answer_form t now state addr :
  request.QType state = dns.TypeA \/ request.QType state = dns.TypeAAAA ->
  written_form t now state
    (address_answer now state (reply (request.Req state)) addr).
Proof.
  intros Hq. unfold traffic.address_answer.
  destruct (Z.eqb_spec (request.QType state) dns.TypeA) as [Ha|Hna].
  - destruct (net.To4 addr) eqn:E4.
    + right. left. exists addr. repeat split; congruence.
    + left. exists dns.RcodeSuccess. split; [now left | reflexivity].
  - destruct Hq as [Hq|Hq]; [contradiction|].
    destruct (net.To4 addr) eqn:E4.
    + left. exists dns.RcodeSuccess. split; [now left | reflexivity].
    + right. right. left. exists addr. repeat split; congruence.
Qed.

Lemma address_type_cases (q : Z) :
  ((q =? dns.TypeA)%Z || (q =? dns.TypeAAAA)%Z = true
   /\ (q = dns.TypeA \/ q = dns.TypeAAAA))
  \/ ((q =? dns.TypeA)%Z || (q =? dns.TypeAAAA)%Z = false
      /\ q <> dns.TypeA /\ q <> dns.TypeAAAA).
Proof.
  destruct (Z.eqb_spec q dns.TypeA), (Z.eqb_spec q dns.TypeAAAA); cbn [orb]; auto.
Qed.

Lemma synthesize_form t now state cluster sockaddr :
  exists m, synthesize t now state (reply (request.Req state)) cluster sockaddr
            = Return 0 (request.W state ++ [m])
            /\ written_form t now state m.
Proof.
  unfold traffic.synthesize. destruct sockaddr as [sa|].
  2:{ eexists. split; [reflexivity|]. left. exists dns.RcodeSuccess.
      split; [now left | reflexivity]. }
  eexists. split; [reflexivity|].
  destruct (address_type_cases (request.QType state)) as [[-> Hq]|[-> [Ha Hb]]].
  { now apply address_answer_form. }
  destruct (Z.eqb_spec (request.QType state) dns.TypeSRV) as [Hq|_].
  - right. right. right. exists cluster. now split.
  - left. exists dns.RcodeSuccess. split; [now left | reflexivity].
Qed.

Lemma serveEndpoint_form t now state endpoint cluster code w' :
  serveEndpoint t now state endpoint cluster = Return code w' ->
  exists m, w' = request.W state ++ [m] /\ code = 0%Z /\ written_form t now state m.
Proof.
  assert (W : forall rcode,
             rcode = dns.RcodeSuccess \/ rcode = dns.RcodeNameError ->
             write_soa now state (reply (request.Req state)) rcode = Return code w' ->
             exists m, w' = request.W state ++ [m] /\ code = 0%Z
                       /\ written_form t now state m).
  { intros rcode Hr E. destruct (write_soa_form t now state rcode Hr) as (m & E' & F).
    rewrite E' in E. injection E as <- <-. now exists m. }
  unfold traffic.serveEndpoint.
  destruct ((strings.Index endpoint "-" =? -1)%Z
            || (strings.Index endpoint "-" =? Z.of_nat (String.length endpoint))%Z).
  { apply W. now right. }
  destruct (strconv.Atoi _) as [nr|]; [|apply W; now right].
  destruct (Z.of_nat (List.length (fst (xds.All (c t) cluster (health t)))) <? nr)%Z.
  { apply W. now right. }
  destruct (at_index _ nr) as [sa|]; [|discriminate].
  intros E. injection E as <- <-. eexists. split; [reflexivity|]. split; [reflexivity|].
  destruct (address_type_cases (request.QType state)) as [[-> Hq]|[-> _]].
  - now apply address_answer_form.
  - left. exists dns.RcodeSuccess. split; [now left | reflexivity].
Qed.

(** Every message [ServeDNS] writes has one of the four forms. *)
Lemma ServeDNS_form t now w r code w' :
  ServeDNS t now w r = Return code w' ->
  exists m, w' = w ++ [m] /\ code = 0%Z /\ written_form t now (state_of t w r) m.
Proof.
  assert (S : forall cluster sockaddr,
             synthesize t now (state_of t w r) (reply r) cluster sockaddr
             = Return code w' ->
             exists m, w' = w ++ [m] /\ code = 0%Z
                       /\ written_form t now (state_of t w r) m).
  { intros cluster sockaddr E.
    destruct (synthesize_form t now (state_of t w r) cluster sockaddr) as (m & E' & F).
    cbn [request.Req request.W traffic.state_of] in E'.
    rewrite E' in E. injection E as <- <-. now exists m. }
  assert (W : forall rcode,
             rcode = dns.RcodeSuccess \/ rcode = dns.RcodeNameError ->
             write_soa now (state_of t w r) (reply r) rcode = Return code w' ->
             exists m, w' = w ++ [m] /\ code = 0%Z
                       /\ written_form t now (state_of t w r) m).
  { intros rcode Hr E.
    destruct (write_soa_form t now (state_of t w r) rcode Hr) as (m & E' & F).
    cbn [request.Req request.W traffic.state_of] in E'.
    rewrite E' in E. injection E as <- <-. now exists m. }
  destruct (snd (xds.Select (c t) (fst (classify t r)) (health t))) eqn:Hok.
  { rewrite (ServeDNS_found TrimZone Join) by exact Hok. apply S. }
  destruct (dns.SplitDomainName (fst (classify t r)))
    as [|l0 [|l1 [|l2 [|l3 rest]]]] eqn:Hs.
  1,2,5: rewrite (ServeDNS_other_labels TrimZone Join)
           by (rewrite ?Hs; simpl; congruence);
         apply W; now right.
  - rewrite (ServeDNS_two_labels TrimZone Join t now w r l0 l1 Hok Hs).
    destruct (strings.ToLower l0 =? "_tcp"); [apply W; now left|].
    destruct (strings.HasPrefix (strings.ToLower l0) "endpoint-"); [|apply S].
    destruct (negb (snd (xds.Select (c t) l1 (health t)))); [apply W; now right|].
    intros E. apply (serveEndpoint_form t now (state_of t w r) l0 l1 code w' E).
  - rewrite (ServeDNS_three_labels TrimZone Join t now w r l0 l1 l2 Hok Hs).
    destruct (negb (strings.ToLower l0 =? "_grpclb")
              || negb (strings.ToLower l1 =? "_tcp")); [apply W; now right | apply S].
Qed.

Lemma form_header t now state m :
  written_form t now state m -> header_of m = header_of (reply (request.Req state)).
Proof.
  intros [(rcode & _ & ->)|[(addr & _ & _ & ->)|[(addr & _ & _ & ->)|(cluster & _ & ->)]]];
    try reflexivity.
  now rewrite srv_loop_header.
Qed.

Lemma map_indexed_Forall {A B : Type} (P : B -> Prop) (f : nat -> A -> B)
      (l : list A) :
  (forall i x, In x l -> P (f i x)) -> forall i, Forall P (map_indexed f i l).
Proof.
  induction l as [|x l IH]; intros H i; cbn [map_indexed]; constructor.
  - apply H. now left.
  - apply IH. intros k y Hy. apply H. now right.
Qed.

Lemma srv_loop_from_reply state cluster sockaddrs r :
  let m := srv_loop state cluster 0 sockaddrs
                    (dns.set_Extra [] (dns.set_Answer [] (reply r))) in
  dns.Answer m = map_indexed (fun k sa => srv_record state k cluster sa) 0 sockaddrs
  /\ dns.Extra m = map_indexed (fun k sa => glue_record state k cluster sa) 0 sockaddrs
  /\ dns.Ns m = [] /\ dns.Rcode m = dns.RcodeSuccess.
Proof.
  cbv zeta.
  destruct (srv_loop_sections state cluster sockaddrs 0
              (dns.set_Extra [] (dns.set_Answer [] (reply r))))
    as (Ha & He & Hn & Hr).
  rewrite Ha, He, Hn, Hr. repeat split.
Qed.

(** An [endpoint-] label that does not continue with an integer stops
    [serveEndpoint] at the parse. *)
Lemma serveEndpoint_unparsed t now state l0 cluster :
  strings.HasPrefix (strings.ToLower l0) "endpoint-" = true ->
  strconv.Atoi (strings.slice_from 9 l0) = None ->
  serveEndpoint t now state l0 cluster
  = write_soa now state (reply (request.Req state)) dns.RcodeNameError.
Proof.
  intros Hp Hnr. unfold traffic.serveEndpoint.
  rewrite (strings_facts.Index_endpoint l0 Hp).
  pose proof (endpoint_label_length l0 Hp) as Hlen.
  replace (8 =? Z.of_nat (String.length l0))%Z with false
    by (symmetry; apply Z.eqb_neq; lia).
  change (Z.to_nat (8 + 1)) with 9%nat. cbn [Z.eqb orb]. now rewrite Hnr.
Qed.

(** Every message [ServeDNS] writes is the reply to the query: it has the
    id and the opcode of the query, the response and the authoritative
    bits, the first question of the query as its question section, and for
    a standard query the rd and cd bits of the query. *)
Theorem written_message_is_reply t now w r code w' :
  ServeDNS t now w r = Return code w' ->
  exists m,
    w' = w ++ [m]
    /\ dns.Id m = dns.Id r
    /\ dns.Opcode m = dns.Opcode r
    /\ dns.Response m = true
    /\ dns.Authoritative m = true
    /\ dns.Questions m = firstn 1 (dns.Questions r)
    /\ (dns.Opcode r = dns.OpcodeQuery ->
        dns.RecursionDesired m = dns.RecursionDesired r
        /\ dns.CheckingDisabled m = dns.CheckingDisabled r).
Proof.
  intros E. destruct (ServeDNS_form t now w r code w' E) as (m & -> & _ & F).
  apply form_header in F. cbn [request.Req traffic.state_of] in F.
  unfold header_of in F. injection F as H1 H2 H3 H4 H5 H6 H7.
  exists m. rewrite H1, H2, H3, H4, H5, H6, H7. repeat split.
  - now rewrite H, Z.eqb_refl.
  - now rewrite H, Z.eqb_refl.
Qed.

(** Every record of the answer section is owned by the name of the
    question as the client sent it and has the type of the question, class
    INET and TTL 5. *)
Theorem answer_records_match_question t now w r code w' :
  ServeDNS t now w r = Return code w' ->
  exists m,
    w' = w ++ [m]
    /\ Forall (fun rr =>
                 dns.Header rr
                 = dns.mkHdr (request.QName (state_of t w r))
                             (request.QType (state_of t w r)) dns.ClassINET 5)
              (dns.Answer m).
Proof.
  intros E. destruct (ServeDNS_form t now w r code w' E) as (m & -> & _ & F).
  exists m. split; [reflexivity|].
  destruct F as [(rcode & _ & ->)|[(addr & Hq & _ & ->)
                |[(addr & Hq & _ & ->)|(cluster & Hq & ->)]]].
  - constructor.
  - rewrite Hq. repeat constructor.
  - rewrite Hq. repeat constructor.
  - destruct (srv_loop_from_reply (state_of t w r) cluster
                (fst (xds.All (c t) cluster (health t))) r) as (Ha & _).
    cbn [request.Req traffic.state_of] in *. rewrite Ha, Hq.
    apply map_indexed_Forall. intros i sa _. reflexivity.
Qed.

(** The additional section is empty unless the question is of type SRV;
    for an SRV question it has as many records as the answer section, each
    an A record with an IPv4 address or an AAAA record with an address that
    is not IPv4, of class INET and TTL 5. *)
Theorem additional_section_is_glue t now w r code w' :
  ServeDNS t now w r = Return code w' ->
  exists m,
    w' = w ++ [m]
    /\ (request.QType (state_of t w r) <> dns.TypeSRV -> dns.Extra m = [])
    /\ List.length (dns.Extra m) <= List.length (dns.Answer m)
    /\ (request.QType (state_of t w r) = dns.TypeSRV ->
        List.length (dns.Extra m) = List.length (dns.Answer m))
    /\ Forall (fun rr =>
                 match rr with
                 | dns.A h addr =>
                     net.To4 addr <> None /\ dns.Rrtype h = dns.TypeA
                     /\ dns.Class h = dns.ClassINET /\ dns.Ttl h = 5%Z
                 | dns.AAAA h addr =>
                     net.To4 addr = None /\ dns.Rrtype h = dns.TypeAAAA
                     /\ dns.Class h = dns.ClassINET /\ dns.Ttl h = 5%Z
                 | _ => False
                 end)
              (dns.Extra m).
Proof.
  intros E. destruct (ServeDNS_form t now w r code w' E) as (m & -> & _ & F).
  exists m. split; [reflexivity|].
  destruct F as [(rcode & _ & ->)|[(addr & Hq & _ & ->)
                |[(addr & Hq & _ & ->)|(cluster & Hq & ->)]]].
  - repeat split; try reflexivity. constructor.
  - repeat split; try reflexivity; try (cbn; lia).
    + rewrite Hq. discriminate.
    + constructor.
  - repeat split; try reflexivity; try (cbn; lia).
    + rewrite Hq. discriminate.
    + constructor.
  - destruct (srv_loop_from_reply (state_of t w r) cluster
                (fst (xds.All (c t) cluster (health t))) r) as (Ha & He & _).
    cbn [request.Req traffic.state_of] in *.
    rewrite Ha, He, !map_indexed_length. repeat split.
    + intros N. now elim N.
    + lia.
    + apply map_indexed_Forall. intros i sa _. unfold glue_record.
      destruct (net.To4 (xds.Address sa)) eqn:E4; repeat split; congruence.
Qed.

(** An NXDOMAIN answer has empty answer and additional sections and the
    synthetic SOA of the zone in the authority section; a message with a
    record in its answer section is NOERROR with an empty authority
    section; and the authority section is never anything but empty or that
    SOA. *)
Theorem nxdomain_carries_only_soa t now w r code w' :
  ServeDNS t now w r = Return code w' ->
  exists m,
    w' = w ++ [m]
    /\ (dns.Rcode m = dns.RcodeNameError ->
        dns.Answer m = [] /\ dns.Extra m = []
        /\ dns.Ns m = soa now (snd (classify t r)))
    /\ (dns.Answer m <> [] -> dns.Rcode m = dns.RcodeSuccess /\ dns.Ns m = [])
    /\ (dns.Ns m = [] \/ dns.Ns m = soa now (snd (classify t r))).
Proof.
  intros E. destruct (ServeDNS_form t now w r code w' E) as (m & -> & _ & F).
  exists m. split; [reflexivity|].
  destruct F as [(rcode & _ & ->)|[(addr & Hq & _ & ->)
                |[(addr & Hq & _ & ->)|(cluster & Hq & ->)]]].
  - split; [intros _; repeat split|]. split; [intros N; now elim N | now right].
  - split; [discriminate|]. split; [intros _; split; reflexivity | now left].
  - split; [discriminate|]. split; [intros _; split; reflexivity | now left].
  - destruct (srv_loop_from_reply (state_of t w r) cluster
                (fst (xds.All (c t) cluster (health t))) r) as (Ha & He & Hn & Hr).
    cbn [request.Req traffic.state_of] in *.
    rewrite Hn, Hr. split; [discriminate|].
    split; [intros _; split; reflexivity | now left].
Qed.

(** [ServeDNS] panics exactly on an [endpoint-] query whose parsed index
    is negative or equal to the number of endpoints of the cluster; on every
    other query it returns 0 after having written one message behind those
    the writer held. *)
Theorem panic_exactly_on_bad_index t now w r :
  let subject := fst (classify t r) in
  let bad :=
    exists l0 l1 nr,
      snd (xds.Select (c t) subject (health t)) = false
      /\ dns.SplitDomainName subject = [l0; l1]
      /\ strings.HasPrefix (strings.ToLower l0) "endpoint-" = true
      /\ snd (xds.Select (c t) l1 (health t)) = true
      /\ strconv.Atoi (strings.slice_from 9 l0) = Some nr
      /\ (nr < 0 \/ nr = Z.of_nat (List.length (fst (xds.All (c t) l1 (health t)))))%Z in
  (bad /\ ServeDNS t now w r = Panic w)
  \/ (~ bad /\ exists m, ServeDNS t now w r = Return 0 (w ++ [m])).
Proof.
  intros subject bad. subst subject.
  assert (S : forall cluster sockaddr,
             exists m, synthesize t now (state_of t w r) (reply r) cluster sockaddr
                       = Return 0 (w ++ [m])).
  { intros cluster sockaddr.
    destruct (synthesize_form t now (state_of t w r) cluster sockaddr) as (m & E' & _).
    now exists m. }
  destruct (snd (xds.Select (c t) (fst (classify t r)) (health t))) eqn:Hok.
  { right. split.
    - intros (l0 & l1 & nr & H & _). congruence.
    - rewrite (ServeDNS_found TrimZone Join) by exact Hok. apply S. }
  destruct (dns.SplitDomainName (fst (classify t r)))
    as [|l0 [|l1 [|l2 [|l3 rest]]]] eqn:Hs.
  1,2,5: right; split;
         [intros (l0' & l1' & nr & _ & H & _); discriminate
         |rewrite (ServeDNS_other_labels TrimZone Join)
            by (rewrite ?Hs; simpl; congruence);
          eexists; reflexivity].
  - rewrite (ServeDNS_two_labels TrimZone Join t now w r l0 l1 Hok Hs).
    destruct (strings.HasPrefix (strings.ToLower l0) "endpoint-") eqn:Hp.
    2:{ right. split.
        - intros (l0' & l1' & nr & _ & H & Hp' & _). injection H as <- <-. congruence.
        - destruct (strings.ToLower l0 =? "_tcp"); [eexists; reflexivity | apply S]. }
    rewrite (strings_facts.endpoint_prefix_not_tcp l0 Hp).
    destruct (snd (xds.Select (c t) l1 (health t))) eqn:Hok1; cbn [negb].
    2:{ right. split.
        - intros (l0' & l1' & nr & _ & H & _ & Hok' & _). injection H as <- <-.
          congruence.
        - eexists. reflexivity. }
    destruct (strconv.Atoi (strings.slice_from 9 l0)) as [nr|] eqn:Hnr.
    2:{ right. split.
        - intros (l0' & l1' & nr & _ & H & _ & _ & Hnr' & _). injection H as <- <-.
          congruence.
        - rewrite (serveEndpoint_unparsed t now (state_of t w r) l0 l1 Hp Hnr).
          eexists. reflexivity. }
    rewrite (serveEndpoint_parsed Join t now (state_of t w r) l0 l1 nr Hp Hnr).
    cbv zeta.
    destruct (Z.ltb_spec (Z.of_nat (List.length (fst (xds.All (c t) l1 (health t))))) nr)
      as [Hlt|Hge].
    { right. split.
      - intros (l0' & l1' & nr' & _ & H & _ & _ & Hnr' & Hbad). injection H as <- <-.
        rewrite Hnr in Hnr'. injection Hnr' as <-. lia.
      - eexists. reflexivity. }
    destruct (at_index (fst (xds.All (c t) l1 (health t))) nr) as [sa|] eqn:Hat.
    + right. split.
      * intros (l0' & l1' & nr' & _ & H & _ & _ & Hnr' & Hbad). injection H as <- <-.
        rewrite Hnr in Hnr'. injection Hnr' as <-.
        apply at_index_Some in Hat as [Hpos Hnth].
        assert (Z.to_nat nr < List.length (fst (xds.All (c t) l1 (health t))))%nat
          by (apply nth_error_Some; congruence).
        lia.
      * eexists. reflexivity.
    + left. split; [|reflexivity].
      exists l0, l1, nr. repeat split; auto.
      apply at_index_None in Hat. lia.
  - right. split.
    + intros (l0' & l1' & nr & _ & H & _). discriminate.
    + rewrite (ServeDNS_three_labels TrimZone Join t now w r l0 l1 l2 Hok Hs).
      destruct (negb (strings.ToLower l0 =? "_grpclb")
                || negb (strings.ToLower l1 =? "_tcp")); [eexists; reflexivity | apply S].
Qed.


(** *** A cluster the direct lookup finds *)

Lemma synthesize_noerror t now state r cluster sockaddr :
  exists m, synthesize t now state (reply r) cluster sockaddr
            = Return 0 (request.W state ++ [m])
            /\ dns.Rcode m = dns.RcodeSuccess.
Proof.
  unfold traffic.synthesize. destruct sockaddr as [sa|].
  2:{ eexists. split; reflexivity. }
  eexists. split; [reflexivity|].
  destruct (address_type_cases (request.QType state)) as [[-> _]|[-> _]].
  { unfold traffic.address_answer.
    destruct (request.QType state =? dns.TypeA)%Z, (net.To4 (xds.Address sa));
      reflexivity. }
  destruct (request.QType state =? dns.TypeSRV)%Z; [|reflexivity].
  apply srv_loop_from_reply.
Qed.

(** When the provider knows the subject as a cluster, [ServeDNS] answers
    NOERROR: such a query is never answered NXDOMAIN and never panics,
    whatever its type and whatever endpoints the cluster has. *)
Theorem found_cluster_is_noerror t now w r :
  snd (xds.Select (c t) (fst (classify t r)) (health t)) = true ->
  exists m,
    ServeDNS t now w r = Return 0 (w ++ [m])
    /\ dns.Rcode m = dns.RcodeSuccess.
Proof.
  intros Hok. rewrite (ServeDNS_found TrimZone Join) by exact Hok.
  apply (synthesize_noerror t now (state_of t w r) r).
Qed.

(** The selected endpoint of a found cluster answers an A query when its
    address is IPv4 and an AAAA query when it is not: one record, owned by
    the query name, with the address of the endpoint, and nothing in the
    other sections. *)
Theorem found_cluster_address_record t now w r sa :
  xds.Select (c t) (fst (classify t r)) (health t) = (Some sa, true) ->
  (request.QType (state_of t w r) = dns.TypeA ->
   net.To4 (xds.Address sa) <> None ->
   exists m, ServeDNS t now w r = Return 0 (w ++ [m])
     /\ dns.Rcode m = dns.RcodeSuccess /\ dns.Ns m = [] /\ dns.Extra m = []
     /\ dns.Answer m
        = [dns.A (dns.mkHdr (request.QName (state_of t w r)) dns.TypeA dns.ClassINET 5)
                 (xds.Address sa)])
  /\ (request.QType (state_of t w r) = dns.TypeAAAA ->
      net.To4 (xds.Address sa) = None ->
      exists m, ServeDNS t now w r = Return 0 (w ++ [m])
        /\ dns.Rcode m = dns.RcodeSuccess /\ dns.Ns m = [] /\ dns.Extra m = []
        /\ dns.Answer m
           = [dns.AAAA (dns.mkHdr (request.QName (state_of t w r)) dns.TypeAAAA
                                  dns.ClassINET 5)
                       (xds.Address sa)]).
Proof.
  intros Hsel. rewrite (ServeDNS_found TrimZone Join) by (now rewrite Hsel).
  rewrite Hsel. cbn [fst]. unfold traffic.synthesize, traffic.address_answer.
  split; intros Hq H4; rewrite Hq.
  - destruct (net.To4 (xds.Address sa)); [|now elim H4]. eexists. repeat split.
  - rewrite H4. eexists. repeat split.
Qed.

(** An address of the other family is no error: an A query on a cluster
    whose selected endpoint is not IPv4, and an AAAA query on one whose
    selected endpoint is IPv4, are answered NOERROR with an empty answer
    section and the synthetic SOA. *)
Theorem found_cluster_other_family_is_nodata t now w r sa :
  xds.Select (c t) (fst (classify t r)) (health t) = (Some sa, true) ->
  (request.QType (state_of t w r) = dns.TypeA /\ net.To4 (xds.Address sa) = None)
  \/ (request.QType (state_of t w r) = dns.TypeAAAA
      /\ net.To4 (xds.Address sa) <> None) ->
  exists m,
    ServeDNS t now w r = Return 0 (w ++ [m])
    /\ dns.Rcode m = dns.RcodeSuccess
    /\ dns.Answer m = [] /\ dns.Extra m = []
    /\ dns.Ns m = soa now (snd (classify t r)).
Proof.
  intros Hsel Hq. rewrite (ServeDNS_found TrimZone Join) by (now rewrite Hsel).
  rewrite Hsel. cbn [fst]. unfold traffic.synthesize, traffic.address_answer.
  destruct Hq as [[Hq H4]|[Hq H4]]; rewrite Hq.
  - rewrite H4. eexists. repeat split.
  - destruct (net.To4 (xds.Address sa)); [|now elim H4]. eexists. repeat split.
Qed.

(** A question of a type other than A, AAAA and SRV on a found cluster is
    answered NOERROR with an empty answer section and the synthetic SOA. *)
Theorem found_cluster_other_type_is_nodata t now w r sa :
  xds.Select (c t) (fst (classify t r)) (health t) = (Some sa, true) ->
  request.QType (state_of t w r) <> dns.TypeA ->
  request.QType (state_of t w r) <> dns.TypeAAAA ->
  request.QType (state_of t w r) <> dns.TypeSRV ->
  exists m,
    ServeDNS t now w r = Return 0 (w ++ [m])
    /\ dns.Rcode m = dns.RcodeSuccess
    /\ dns.Answer m = [] /\ dns.Extra m = []
    /\ dns.Ns m = soa now (snd (classify t r)).
Proof.
  intros Hsel Ha Haaaa Hsrv.
  rewrite (ServeDNS_found TrimZone Join) by (now rewrite Hsel).
  rewrite Hsel. cbn [fst]. unfold traffic.synthesize.
  apply Z.eqb_neq in Ha, Haaaa, Hsrv. rewrite Ha, Haaaa, Hsrv.
  eexists. repeat split.
Qed.

(** A cluster the provider knows but has no endpoint to select from is
    answered NOERROR with an empty answer section and the synthetic SOA,
    for every type of question; the list of endpoints is not consulted. *)
Theorem found_cluster_without_endpoint_is_nodata t now w r :
  xds.Select (c t) (fst (classify t r)) (health t) = (None, true) ->
  exists m,
    ServeDNS t now w r = Return 0 (w ++ [m])
    /\ dns.Rcode m = dns.RcodeSuccess
    /\ dns.Answer m = [] /\ dns.Extra m = []
    /\ dns.Ns m = soa now (snd (classify t r)).
Proof.
  intros Hsel. rewrite (ServeDNS_found TrimZone Join) by (now rewrite Hsel).
  rewrite Hsel. eexists. repeat split.
Qed.

(** *** The endpoint form *)

(** With the index within the list, the endpoint path writes the answer of
    the endpoint at that index. *)
Lemma endpoint_in_range t now w r l0 l1 nr ep :
  dns.SplitDomainName (fst (classify t r)) = [l0; l1] ->
  snd (xds.Select (c t) (fst (classify t r)) (health t)) = false ->
  strings.HasPrefix (strings.ToLower l0) "endpoint-" = true ->
  snd (xds.Select (c t) l1 (health t)) = true ->
  strconv.Atoi (strings.slice_from 9 l0) = Some nr ->
  (0 <= nr)%Z ->
  nth_error (fst (xds.All (c t) l1 (health t))) (Z.to_nat nr) = Some ep ->
  ServeDNS t now w r
  = Return 0 (w ++ [if (request.QType (state_of t w r) =? dns.TypeA)%Z
                       || (request.QType (state_of t w r) =? dns.TypeAAAA)%Z
                    then address_answer now (state_of t w r) (reply r) (xds.Address ep)
                    else dns.set_Ns (soa now (snd (classify t r))) (reply r)]).
Proof.
  intros Hs Hmiss Hp Hok Hnr Hpos Hnth.
  rewrite (ServeDNS_two_labels TrimZone Join t now w r l0 l1 Hmiss Hs).
  rewrite (strings_facts.endpoint_prefix_not_tcp l0 Hp), Hp, Hok. cbn [negb].
  rewrite (serveEndpoint_parsed Join _ _ _ _ _ _ Hp Hnr). cbv zeta.
  assert (Hlen : (Z.to_nat nr < List.length (fst (xds.All (c t) l1 (health t))))%nat).
  { apply nth_error_Some. congruence. }
  replace (Z.of_nat (List.length (fst (xds.All (c t) l1 (health t)))) <? nr)%Z
    with false by (symmetry; apply Z.ltb_ge; lia).
  replace (at_index (fst (xds.All (c t) l1 (health t))) nr) with (Some ep)
    by (symmetry; apply at_index_Some; auto).
  reflexivity.
Qed.

(** At endpoint granularity only addresses are served: when the direct
    lookup of the whole subject fails and the provider knows the cluster,
    an [endpoint-N.cluster] question of any type other than A and AAAA, SRV
    included, with N within the list, is answered NOERROR with an empty
    answer section and the synthetic SOA. *)
Theorem endpoint_other_type_is_nodata t now w r l0 l1 nr ep :
  dns.SplitDomainName (fst (classify t r)) = [l0; l1] ->
  snd (xds.Select (c t) (fst (classify t r)) (health t)) = false ->
  strings.HasPrefix (strings.ToLower l0) "endpoint-" = true ->
  snd (xds.Select (c t) l1 (health t)) = true ->
  strconv.Atoi (strings.slice_from 9 l0) = Some nr ->
  (0 <= nr)%Z ->
  nth_error (fst (xds.All (c t) l1 (health t))) (Z.to_nat nr) = Some ep ->
  request.QType (state_of t w r) <> dns.TypeA ->
  request.QType (state_of t w r) <> dns.TypeAAAA ->
  exists m,
    ServeDNS t now w r = Return 0 (w ++ [m])
    /\ dns.Rcode m = dns.RcodeSuccess
    /\ dns.Answer m = [] /\ dns.Extra m = []
    /\ dns.Ns m = soa now (snd (classify t r)).
Proof.
  intros Hs Hmiss Hp Hok Hnr Hpos Hnth Ha Haaaa.
  rewrite (endpoint_in_range t now w r l0 l1 nr ep Hs Hmiss Hp Hok Hnr Hpos Hnth).
  apply Z.eqb_neq in Ha, Haaaa. rewrite Ha, Haaaa.
  eexists. repeat split.
Qed.

(** When the direct lookup of the whole subject fails and the provider
    knows the cluster, an [endpoint-N.cluster] question with N within the
    list, for the address family the Nth endpoint does not have, is
    answered NOERROR with an empty answer section and the synthetic SOA. *)
Theorem endpoint_other_family_is_nodata t now w r l0 l1 nr ep :
  dns.SplitDomainName (fst (classify t r)) = [l0; l1] ->
  snd (xds.Select (c t) (fst (classify t r)) (health t)) = false ->
  strings.HasPrefix (strings.ToLower l0) "endpoint-" = true ->
  snd (xds.Select (c t) l1 (health t)) = true ->
  strconv.Atoi (strings.slice_from 9 l0) = Some nr ->
  (0 <= nr)%Z ->
  nth_error (fst (xds.All (c t) l1 (health t))) (Z.to_nat nr) = Some ep ->
  (request.QType (state_of t w r) = dns.TypeA /\ net.To4 (xds.Address ep) = None)
  \/ (request.QType (state_of t w r) = dns.TypeAAAA
      /\ net.To4 (xds.Address ep) <> None) ->
  exists m,
    ServeDNS t now w r = Return 0 (w ++ [m])
    /\ dns.Rcode m = dns.RcodeSuccess
    /\ dns.Answer m = [] /\ dns.Extra m = []
    /\ dns.Ns m = soa now (snd (classify t r)).
Proof.
  intros Hs Hmiss Hp Hok Hnr Hpos Hnth Hq.
  rewrite (endpoint_in_range t now w r l0 l1 nr ep Hs Hmiss Hp Hok Hnr Hpos Hnth).
  unfold traffic.address_answer.
  destruct Hq as [[Hq H4]|[Hq H4]]; rewrite Hq.
  - rewrite H4. eexists. repeat split.
  - destruct (net.To4 (xds.Address ep)); [|now elim H4]. eexists. repeat split.
Qed.

(** When the direct lookup of the whole subject fails and the provider
    knows the cluster, an [endpoint-N.cluster] question with N greater than
    the number of endpoints of the cluster is answered NXDOMAIN with the
    synthetic SOA, whatever its type. *)
Theorem endpoint_beyond_length_is_nxdomain t now w r l0 l1 nr :
  dns.SplitDomainName (fst (classify t r)) = [l0; l1] ->
  snd (xds.Select (c t) (fst (classify t r)) (health t)) = false ->
  strings.HasPrefix (strings.ToLower l0) "endpoint-" = true ->
  snd (xds.Select (c t) l1 (health t)) = true ->
  strconv.Atoi (strings.slice_from 9 l0) = Some nr ->
  (Z.of_nat (List.length (fst (xds.All (c t) l1 (health t)))) < nr)%Z ->
  exists m,
    ServeDNS t now w r = Return 0 (w ++ [m])
    /\ dns.Rcode m = dns.RcodeNameError
    /\ dns.Answer m = [] /\ dns.Extra m = []
    /\ dns.Ns m = soa now (snd (classify t r)).
Proof.
  intros Hs Hmiss Hp Hok Hnr Hlt.
  rewrite (ServeDNS_two_labels TrimZone Join t now w r l0 l1 Hmiss Hs).
  rewrite (strings_facts.endpoint_prefix_not_tcp l0 Hp), Hp, Hok. cbn [negb].
  rewrite (serveEndpoint_parsed Join _ _ _ _ _ _ Hp Hnr). cbv zeta.
  apply Z.ltb_lt in Hlt. rewrite Hlt. eexists. repeat split.
Qed.

(** When the direct lookup of the whole subject fails, an [endpoint-]
    question on a second label the provider does not know as a cluster
    either is answered NXDOMAIN with the synthetic SOA before the index is
    looked at: also when the index is not an integer, and when it is one on
    which the indexing would panic. *)
Theorem endpoint_unknown_cluster_is_nxdomain t now w r l0 l1 :
  dns.SplitDomainName (fst (classify t r)) = [l0; l1] ->
  snd (xds.Select (c t) (fst (classify t r)) (health t)) = false ->
  strings.HasPrefix (strings.ToLower l0) "endpoint-" = true ->
  snd (xds.Select (c t) l1 (health t)) = false ->
  exists m,
    ServeDNS t now w r = Return 0 (w ++ [m])
    /\ dns.Rcode m = dns.RcodeNameError
    /\ dns.Answer m = [] /\ dns.Extra m = []
    /\ dns.Ns m = soa now (snd (classify t r)).
Proof.
  intros Hs Hmiss Hp Hok.
  rewrite (ServeDNS_two_labels TrimZone Join t now w r l0 l1 Hmiss Hs).
  rewrite (strings_facts.endpoint_prefix_not_tcp l0 Hp), Hp, Hok.
  eexists. repeat split.
Qed.

Lemma HasPrefix_app (p x : string) : strings.HasPrefix (p ++ x) p = true.
Proof.
  unfold strings.HasPrefix. apply andb_true_iff. split.
  - apply Nat.leb_le. rewrite strings_facts.length_app. lia.
  - apply String.eqb_eq. induction p as [|ch p IH]; cbn.
    + now destruct x.
    + now rewrite IH.
Qed.

Lemma append_inv_tail (p q tail : string) :
  (p ++ tail)%string = (q ++ tail)%string -> p = q.
Proof.
  revert q. induction p as [|ch p IH]; intros [|ch' q] E; cbn in E.
  - reflexivity.
  - exfalso. apply (f_equal String.length) in E. cbn in E.
    rewrite strings_facts.length_app in E. lia.
  - exfalso. apply (f_equal String.length) in E. cbn in E.
    rewrite strings_facts.length_app in E. lia.
  - injection E as -> E. f_equal. now apply IH.
Qed.

(** The name the SRV loop prints as the target of the endpoint at position
    [i] leads the endpoint path back to that endpoint.  When the subject of
    a query splits into two labels [l0] and [cluster] such that
    [l0.cluster.zone] is the target [endpoint-<i>.<cluster>.<zone>] the
    loop prints, the direct lookup of the whole subject fails and the
    provider knows the cluster, then the query, asked for the address
    family of the endpoint, is answered with the address of the endpoint at
    position [i] of [All(cluster)]. *)
Theorem srv_target_resolves_back t now w r l0 i cluster ep :
  dns.SplitDomainName (fst (classify t r)) = [l0; cluster] ->
  (l0 ++ "." ++ cluster ++ "." ++ snd (classify t r))%string
  = target_name i cluster (snd (classify t r)) ->
  snd (xds.Select (c t) (fst (classify t r)) (health t)) = false ->
  snd (xds.Select (c t) cluster (health t)) = true ->
  nth_error (fst (xds.All (c t) cluster (health t))) i = Some ep ->
  (Z.of_nat i <= strconv.maxInt)%Z ->
  (request.QType (state_of t w r) = dns.TypeA ->
   net.To4 (xds.Address ep) <> None ->
   exists m, ServeDNS t now w r = Return 0 (w ++ [m])
     /\ dns.Rcode m = dns.RcodeSuccess /\ dns.Ns m = []
     /\ dns.Answer m
        = [dns.A (dns.mkHdr (request.QName (state_of t w r)) dns.TypeA dns.ClassINET 5)
                 (xds.Address ep)])
  /\ (request.QType (state_of t w r) = dns.TypeAAAA ->
      net.To4 (xds.Address ep) = None ->
      exists m, ServeDNS t now w r = Return 0 (w ++ [m])
        /\ dns.Rcode m = dns.RcodeSuccess /\ dns.Ns m = []
        /\ dns.Answer m
           = [dns.AAAA (dns.mkHdr (request.QName (state_of t w r)) dns.TypeAAAA
                                  dns.ClassINET 5)
                       (xds.Address ep)]).
Proof.
  intros Hs Ht Hmiss Hok Hnth Hmax.
  assert (El : l0 = ("endpoint-" ++ fmt.decimal i)%string).
  { unfold target_name in Ht.
    apply (append_inv_tail l0 ("endpoint-" ++ fmt.decimal i)
             ("." ++ cluster ++ "." ++ snd (classify t r))).
    rewrite Ht. reflexivity. }
  subst l0.
  assert (Hp : strings.HasPrefix
                 (strings.ToLower ("endpoint-" ++ fmt.decimal i)) "endpoint-" = true).
  { change (strings.ToLower ("endpoint-" ++ fmt.decimal i))
      with ("endpoint-" ++ strings.ToLower (fmt.decimal i))%string.
    apply HasPrefix_app. }
  assert (Hnr : strconv.Atoi (strings.slice_from 9 ("endpoint-" ++ fmt.decimal i))
                = Some (Z.of_nat i)).
  { change 9%nat with (String.length "endpoint-").
    rewrite strings_facts.slice_from_app. now apply Atoi_of_decimal. }
  rewrite <- (Nat2Z.id i) in Hnth.
  rewrite (endpoint_in_range t now w r _ cluster (Z.of_nat i) ep
             Hs Hmiss Hp Hok Hnr (Nat2Z.is_nonneg i) Hnth).
  unfold traffic.address_answer. split; intros Hq H4; rewrite Hq.
  - destruct (net.To4 (xds.Address ep)); [|now elim H4]. eexists. repeat split.
  - rewrite H4. eexists. repeat split.
Qed.

(** *** Other subjects *)

(** A subject of three labels that does not start with [_grpclb._tcp]
    (compared case-insensitively) and is no cluster itself is answered
    NXDOMAIN with the synthetic SOA. *)
Theorem three_labels_not_grpclb_is_nxdomain t now w r l0 l1 l2 :
  dns.SplitDomainName (fst (classify t r)) = [l0; l1; l2] ->
  snd (xds.Select (c t) (fst (classify t r)) (health t)) = false ->
  strings.ToLower l0 <> "_grpclb" \/ strings.ToLower l1 <> "_tcp" ->
  exists m,
    ServeDNS t now w r = Return 0 (w ++ [m])
    /\ dns.Rcode m = dns.RcodeNameError
    /\ dns.Answer m = [] /\ dns.Extra m = []
    /\ dns.Ns m = soa now (snd (classify t r)).
Proof.
  intros Hs Hmiss Hne.
  rewrite (ServeDNS_three_labels TrimZone Join t now w r l0 l1 l2 Hmiss Hs).
  assert (E : negb (strings.ToLower l0 =? "_grpclb")
              || negb (strings.ToLower l1 =? "_tcp") = true).
  { destruct Hne as [H|H]; apply String.eqb_neq in H; rewrite H;
      [reflexivity | apply orb_true_r]. }
  rewrite E. eexists. repeat split.
Qed.

(** A subject that is no cluster and has one label, or four and more, or
    none, is answered NXDOMAIN with the synthetic SOA: an unknown cluster
    name is a name error. *)
Theorem unknown_subject_is_nxdomain t now w r :
  snd (xds.Select (c t) (fst (classify t r)) (health t)) = false ->
  List.length (dns.SplitDomainName (fst (classify t r))) <> 2%nat ->
  List.length (dns.SplitDomainName (fst (classify t r))) <> 3%nat ->
  exists m,
    ServeDNS t now w r = Return 0 (w ++ [m])
    /\ dns.Rcode m = dns.RcodeNameError
    /\ dns.Answer m = [] /\ dns.Extra m = []
    /\ dns.Ns m = soa now (snd (classify t r)).
Proof.
  intros Hmiss H2 H3.
  rewrite (ServeDNS_other_labels TrimZone Join t now w r Hmiss H2 H3).
  eexists. repeat split.
Qed.

(** When the direct lookup of the whole subject fails, an SRV question on
    [_grpclb._tcp.<cluster>] for which [Select(mgmt)] returns an endpoint is
    answered with the endpoints of the management cluster: one SRV record
    per element of [All(mgmt)], whose target is
    [endpoint-<index>.<mgmt>.<zone>] with the index in decimal, named after
    the management cluster and not after [<cluster>], and one address
    record per element in the additional section, owned by that target. *)
Theorem grpclb_srv_targets_management t now w r l0 l1 l2 sa :
  dns.SplitDomainName (fst (classify t r)) = [l0; l1; l2] ->
  strings.ToLower l0 = "_grpclb" ->
  strings.ToLower l1 = "_tcp" ->
  snd (xds.Select (c t) (fst (classify t r)) (health t)) = false ->
  fst (xds.Select (c t) (mgmt t) (health t)) = Some sa ->
  request.QType (state_of t w r) = dns.TypeSRV ->
  let sockaddrs := fst (xds.All (c t) (mgmt t) (health t)) in
  let zone := snd (classify t r) in
  let target := fun i : nat =>
    ("endpoint-" ++ NilZero.string_of_uint (Nat.to_uint i)
       ++ "." ++ mgmt t ++ "." ++ zone)%string in
  exists m,
    ServeDNS t now w r = Return 0 (w ++ [m])
    /\ dns.Rcode m = dns.RcodeSuccess /\ dns.Ns m = []
    /\ List.length (dns.Answer m) = List.length sockaddrs
    /\ List.length (dns.Extra m) = List.length sockaddrs
    /\ forall i ep, nth_error sockaddrs i = Some ep ->
         nth_error (dns.Answer m) i
         = Some (dns.SRV (dns.mkHdr (request.QName (state_of t w r))
                                    dns.TypeSRV dns.ClassINET 5)
                         100 100 (xds.Port ep) (target i))
         /\ exists glue,
              nth_error (dns.Extra m) i = Some glue
              /\ dns.Name (dns.Header glue) = target i.
Proof.
  intros Hs H0 H1 Hmiss Hsel Hq sockaddrs zone target. subst target. cbv beta.
  rewrite (ServeDNS_three_labels TrimZone Join t now w r l0 l1 l2 Hmiss Hs), H0, H1.
  cbn [String.eqb Ascii.eqb Bool.eqb negb orb]. rewrite Hsel.
  unfold traffic.synthesize. rewrite Hq.
  cbn [Z.eqb dns.TypeSRV dns.TypeA dns.TypeAAAA orb Pos.eqb].
  fold sockaddrs.
  destruct (srv_loop_from_reply (state_of t w r) (mgmt t) sockaddrs r)
    as (Ha & He & Hn & Hr).
  eexists. split; [reflexivity|].
  rewrite Ha, He, Hn, Hr, !map_indexed_length. repeat split.
  - rewrite (map_indexed_nth _ _ 0 i ep H). reflexivity.
  - eexists. split; [apply (map_indexed_nth _ _ 0 i ep H)|].
    cbn [Nat.add]. unfold glue_record.
    destruct (net.To4 (xds.Address ep)); reflexivity.
Qed.

End Further.

(** *** The theorems at the scenarios *)

Import scenario.

Lemma written_message_is_reply_witness :
  exists m,
    written (serve provider2 "web.example.org." dns.TypeSRV) = [] ++ [m]
    /\ dns.Id m = 7%Z
    /\ dns.Opcode m = dns.OpcodeQuery
    /\ dns.Response m = true
    /\ dns.Authoritative m = true
    /\ dns.Questions m = [dns.mkQuestion "web.example.org." dns.TypeSRV dns.ClassINET]
    /\ (dns.OpcodeQuery = dns.OpcodeQuery ->
        dns.RecursionDesired m = true /\ dns.CheckingDisabled m = false).
Proof.
  apply (written_message_is_reply dnsutil.TrimZone dnsutil.Join
           (plugin_with provider2) clock [] (query "web.example.org." dns.TypeSRV)
           0%Z (written (serve provider2 "web.example.org." dns.TypeSRV))).
  reflexivity.
Defined.

Lemma answer_records_match_question_witness :
  exists m,
    written (serve provider2 "web.example.org." dns.TypeSRV) = [] ++ [m]
    /\ Forall (fun rr =>
                 dns.Header rr
                 = dns.mkHdr "web.example.org." dns.TypeSRV dns.ClassINET 5)
              (dns.Answer m).
Proof.
  apply (answer_records_match_question dnsutil.TrimZone dnsutil.Join
           (plugin_with provider2) clock [] (query "web.example.org." dns.TypeSRV)
           0%Z (written (serve provider2 "web.example.org." dns.TypeSRV))).
  reflexivity.
Defined.

Lemma additional_section_is_glue_witness :
  exists m,
    written (serve provider2 "web.example.org." dns.TypeSRV) = [] ++ [m]
    /\ List.length (dns.Extra m) = List.length (dns.Answer m).
Proof.
  destruct (additional_section_is_glue dnsutil.TrimZone dnsutil.Join
              (plugin_with provider2) clock [] (query "web.example.org." dns.TypeSRV)
              0%Z (written (serve provider2 "web.example.org." dns.TypeSRV)) eq_refl)
    as (m & E & _ & _ & H & _).
  exists m. split; [exact E | apply H; reflexivity].
Defined.

Lemma nxdomain_carries_only_soa_witness :
  exists m,
    written (serve provider "nope.example.org." dns.TypeA) = [] ++ [m]
    /\ (dns.Rcode m = dns.RcodeNameError ->
        dns.Answer m = [] /\ dns.Extra m = []
        /\ dns.Ns m = soa dnsutil.Join clock "example.org.").
Proof.
  destruct (nxdomain_carries_only_soa dnsutil.TrimZone dnsutil.Join
              (plugin_with provider) clock [] (query "nope.example.org." dns.TypeA)
              0%Z (written (serve provider "nope.example.org." dns.TypeA)) eq_refl)
    as (m & E & H & _).
  exists m. split; [exact E | exact H].
Defined.

Lemma found_cluster_is_noerror_witness :
  exists m,
    serve provider "web.example.org." scenario.TypeTXT = Return 0 ([] ++ [m])
    /\ dns.Rcode m = dns.RcodeSuccess.
Proof.
  apply (found_cluster_is_noerror dnsutil.TrimZone dnsutil.Join
           (plugin_with provider) clock [] (query "web.example.org." scenario.TypeTXT)).
  reflexivity.
Defined.

Lemma found_cluster_address_record_witness :
  exists m,
    serve provider6 "web.example.org." dns.TypeAAAA = Return 0 ([] ++ [m])
    /\ dns.Rcode m = dns.RcodeSuccess /\ dns.Ns m = [] /\ dns.Extra m = []
    /\ dns.Answer m
       = [dns.AAAA (dns.mkHdr "web.example.org." dns.TypeAAAA dns.ClassINET 5)
                   (xds.Address web2)].
Proof.
  apply (found_cluster_address_record dnsutil.TrimZone dnsutil.Join
           (plugin_with provider6) clock [] (query "web.example.org." dns.TypeAAAA)
           web2); reflexivity.
Defined.

Lemma found_cluster_other_family_is_nodata_witness :
  exists m,
    serve provider6 "web.example.org." dns.TypeA = Return 0 ([] ++ [m])
    /\ dns.Rcode m = dns.RcodeSuccess
    /\ dns.Answer m = [] /\ dns.Extra m = []
    /\ dns.Ns m = soa dnsutil.Join clock "example.org.".
Proof.
  apply (found_cluster_other_family_is_nodata dnsutil.TrimZone dnsutil.Join
           (plugin_with provider6) clock [] (query "web.example.org." dns.TypeA)
           web2); [reflexivity|].
  left. split; reflexivity.
Defined.

Lemma found_cluster_other_type_is_nodata_witness :
  exists m,
    serve provider "web.example.org." scenario.TypeTXT = Return 0 ([] ++ [m])
    /\ dns.Rcode m = dns.RcodeSuccess
    /\ dns.Answer m = [] /\ dns.Extra m = []
    /\ dns.Ns m = soa dnsutil.Join clock "example.org.".
Proof.
  apply (found_cluster_other_type_is_nodata dnsutil.TrimZone dnsutil.Join
           (plugin_with provider) clock [] (query "web.example.org." scenario.TypeTXT)
           web1); [reflexivity | discriminate | discriminate | discriminate].
Defined.

Lemma found_cluster_without_endpoint_is_nodata_witness :
  exists m,
    serve provider_idle "idle.example.org." dns.TypeSRV = Return 0 ([] ++ [m])
    /\ dns.Rcode m = dns.RcodeSuccess
    /\ dns.Answer m = [] /\ dns.Extra m = []
    /\ dns.Ns m = soa dnsutil.Join clock "example.org.".
Proof.
  apply (found_cluster_without_endpoint_is_nodata dnsutil.TrimZone dnsutil.Join
           (plugin_with provider_idle) clock []
           (query "idle.example.org." dns.TypeSRV)).
  reflexivity.
Defined.

Lemma endpoint_other_type_is_nodata_witness :
  exists m,
    serve provider2 "endpoint-0.web.example.org." dns.TypeSRV = Return 0 ([] ++ [m])
    /\ dns.Rcode m = dns.RcodeSuccess
    /\ dns.Answer m = [] /\ dns.Extra m = []
    /\ dns.Ns m = soa dnsutil.Join clock "example.org.".
Proof.
  apply (endpoint_other_type_is_nodata dnsutil.TrimZone dnsutil.Join
           (plugin_with provider2) clock []
           (query "endpoint-0.web.example.org." dns.TypeSRV)
           "endpoint-0" "web" 0%Z web1); try reflexivity; discriminate.
Defined.

Lemma endpoint_other_family_is_nodata_witness :
  exists m,
    serve provider2 "endpoint-1.web.example.org." dns.TypeA = Return 0 ([] ++ [m])
    /\ dns.Rcode m = dns.RcodeSuccess
    /\ dns.Answer m = [] /\ dns.Extra m = []
    /\ dns.Ns m = soa dnsutil.Join clock "example.org.".
Proof.
  apply (endpoint_other_family_is_nodata dnsutil.TrimZone dnsutil.Join
           (plugin_with provider2) clock []
           (query "endpoint-1.web.example.org." dns.TypeA)
           "endpoint-1" "web" 1%Z web2); try reflexivity.
  - discriminate.
  - left. split; reflexivity.
Defined.

Lemma endpoint_beyond_length_is_nxdomain_witness :
  exists m,
    serve provider "endpoint-5.web.example.org." dns.TypeA = Return 0 ([] ++ [m])
    /\ dns.Rcode m = dns.RcodeNameError
    /\ dns.Answer m = [] /\ dns.Extra m = []
    /\ dns.Ns m = soa dnsutil.Join clock "example.org.".
Proof.
  apply (endpoint_beyond_length_is_nxdomain dnsutil.TrimZone dnsutil.Join
           (plugin_with provider) clock []
           (query "endpoint-5.web.example.org." dns.TypeA)
           "endpoint-5" "web" 5%Z); reflexivity.
Defined.

Lemma endpoint_unknown_cluster_is_nxdomain_witness :
  exists m,
    serve provider "endpoint-0.nope.example.org." dns.TypeA = Return 0 ([] ++ [m])
    /\ dns.Rcode m = dns.RcodeNameError
    /\ dns.Answer m = [] /\ dns.Extra m = []
    /\ dns.Ns m = soa dnsutil.Join clock "example.org.".
Proof.
  apply (endpoint_unknown_cluster_is_nxdomain dnsutil.TrimZone dnsutil.Join
           (plugin_with provider) clock []
           (query "endpoint-0.nope.example.org." dns.TypeA)
           "endpoint-0" "nope"); reflexivity.
Defined.

Lemma malformed_endpoint_is_nxdomain_witness :
  exists m,
    serve provider "endpoint-x.web.example.org." dns.TypeA = Return 0 ([] ++ [m])
    /\ dns.Rcode m = dns.RcodeNameError
    /\ dns.Answer m = []
    /\ dns.Ns m = soa dnsutil.Join clock "example.org.".
Proof.
  apply (malformed_endpoint_is_nxdomain dnsutil.TrimZone dnsutil.Join
           (plugin_with provider) clock []
           (query "endpoint-x.web.example.org." dns.TypeA)
           "endpoint-x" "web"); reflexivity.
Defined.

Lemma srv_target_resolves_back_witness :
  nth_error (dns.Answer
               (hd dns.new_Msg
                   (written (serve provider2 "web.example.org." dns.TypeSRV)))) 1
  = Some (dns.SRV (dns.mkHdr "web.example.org." dns.TypeSRV dns.ClassINET 5)
                  100 100 8081 "endpoint-1.web.example.org.")
  /\ exists m,
       serve provider2 "endpoint-1.web.example.org." dns.TypeAAAA
       = Return 0 ([] ++ [m])
       /\ dns.Rcode m = dns.RcodeSuccess /\ dns.Ns m = []
       /\ dns.Answer m
          = [dns.AAAA (dns.mkHdr "endpoint-1.web.example.org." dns.TypeAAAA
                                 dns.ClassINET 5)
                      (xds.Address web2)].
Proof.
  split; [reflexivity|].
  apply (srv_target_resolves_back dnsutil.TrimZone dnsutil.Join
           (plugin_with provider2) clock []
           (query "endpoint-1.web.example.org." dns.TypeAAAA)
           "endpoint-1" 1%nat "web" web2); try reflexivity.
  unfold strconv.maxInt. lia.
Defined.

Lemma three_labels_not_grpclb_is_nxdomain_witness :
  exists m,
    serve provider "_grpclb._udp.web.example.org." dns.TypeSRV = Return 0 ([] ++ [m])
    /\ dns.Rcode m = dns.RcodeNameError
    /\ dns.Answer m = [] /\ dns.Extra m = []
    /\ dns.Ns m = soa dnsutil.Join clock "example.org.".
Proof.
  apply (three_labels_not_grpclb_is_nxdomain dnsutil.TrimZone dnsutil.Join
           (plugin_with provider) clock []
           (query "_grpclb._udp.web.example.org." dns.TypeSRV)
           "_grpclb" "_udp" "web"); try reflexivity.
  right. discriminate.
Defined.

Lemma unknown_subject_is_nxdomain_witness :
  exists m,
    serve provider "nope.example.org." dns.TypeA = Return 0 ([] ++ [m])
    /\ dns.Rcode m = dns.RcodeNameError
    /\ dns.Answer m = [] /\ dns.Extra m = []
    /\ dns.Ns m = soa dnsutil.Join clock "example.org.".
Proof.
  apply (unknown_subject_is_nxdomain dnsutil.TrimZone dnsutil.Join
           (plugin_with provider) clock [] (query "nope.example.org." dns.TypeA));
    [reflexivity | discriminate | discriminate].
Defined.

Lemma grpclb_srv_targets_management_witness :
  exists m,
    serve provider "_grpclb._tcp.web.example.org." dns.TypeSRV = Return 0 ([] ++ [m])
    /\ dns.Rcode m = dns.RcodeSuccess /\ dns.Ns m = []
    /\ List.length (dns.Answer m) = 1%nat
    /\ nth_error (dns.Answer m) 0
       = Some (dns.SRV (dns.mkHdr "_grpclb._tcp.web.example.org."
                                  dns.TypeSRV dns.ClassINET 5)
                       100 100 7000 "endpoint-0.mgmt.example.org.").
Proof.
  destruct (grpclb_srv_targets_management dnsutil.TrimZone dnsutil.Join
              (plugin_with provider) clock []
              (query "_grpclb._tcp.web.example.org." dns.TypeSRV)
              "_grpclb" "_tcp" "web" mgmt1
              eq_refl eq_refl eq_refl eq_refl eq_refl eq_refl)
    as (m & E & Hr & Hn & Ha & _ & Hnth).
  exists m. repeat split; try assumption.
  apply (Hnth 0%nat mgmt1 eq_refl).
Defined.

End traffic_more.
